(** * Public-subnet discovery of the SFTP gateway stack

    A shallow embedding of the one piece of logic in the two Pulumi
    programs of the repository: the [publicSubnets] output and the
    [subnetId] handed to the EC2 instance.

    - [Part000] embeds the program that inspects route tables
      (src/unnamed/part_000, lines 13-55 and 172-179);
    - [IndexTs] embeds src/index.ts (lines 12-16 and 121-127), which takes
      the first enumerated subnet.

    The AWS inventory is a snapshot: a pair of response functions.  The
    program runs in a small state-and-exception monad whose state holds the
    snapshot, the log of the lookups issued so far and the array bound by
    [const publicSubnetIds]. *)

From Stdlib Require Import String List Bool Lia.
From stdpp Require Import base tactics option list sets strings.

Local Open Scope string_scope.
Local Open Scope list_scope.

(** ** JavaScript primitives used by the programs *)

Module Js.

(** [s.startsWith(p)] *)
Definition startsWith (s p : string) : bool := String.prefix p s.

(** [s.includes(p)]: [p] occurs at some position of [s]. *)
Fixpoint includes (s p : string) : bool :=
  String.prefix p s ||
  match s with
  | EmptyString => false
  | String _ s' => includes s' p
  end.

(** [xs.some(f)] *)
Definition some {A} (f : A -> bool) (xs : list A) : bool := existsb f xs.

(** A value caught by [catch (error: unknown)].  [instanceof Error] holds
    of the first constructor only; an [Error] object carries its [name]
    (the structured kind) and its [message].  Any other thrown value is
    kept by its text. *)
Inductive Thrown : Type :=
| ErrorObject (name message : string)
| OtherValue (text : string).

Definition instanceofError (error : Thrown) : bool :=
  match error with
  | ErrorObject _ _ => true
  | OtherValue _ => false
  end.

(** What a call hands back: a value, or a thrown value (for an [async]
    call: the promise is fulfilled or rejected). *)
Inductive Outcome (A : Type) : Type :=
| Returned (a : A)
| Threw (error : Thrown).
Arguments Returned {A} a.
Arguments Threw {A} error.

End Js.
Export Js.

(** ** The data of @pulumi/aws that the programs read *)

Record Filter := { name : string; values : list string }.

(** [aws.ec2.getVpc] result: only [id] is read. *)
Record GetVpcResult := { id : string }.

(** [aws.ec2.getSubnets] result: only [ids] is read. *)
Record GetSubnetsResult := { ids : list string }.

(** A route of a route table; [gatewayId] may be absent
    (the source reads it with [?.]). *)
Record Route := { cidrBlock : string; gatewayId : option string }.

(** [aws.ec2.getRouteTable] result. *)
Record GetRouteTableResult := { routeTableId : string; routes : list Route }.

#[global] Instance Filter_eq_dec : EqDecision Filter.
Proof. solve_decision. Defined.

(** The inventory snapshot: the answer of the cloud provider to each of
    the two lookups, as a function of the filters passed. *)
Record Inventory := {
  subnetsResponse : list Filter -> Outcome GetSubnetsResult;
  routeTableResponse : list Filter -> Outcome GetRouteTableResult
}.

(** A lookup issued to the provider. *)
Inductive Call : Type :=
| GetSubnets (filters : list Filter)
| GetRouteTable (filters : list Filter).

(** ** Program state and the monad of the embedding *)

Record State := {
  inventory : Inventory;
  calls : list Call;                 (* lookups issued so far, oldest first *)
  publicSubnetIds : list string      (* the array of part_000, line 21 *)
}.

Definition M (A : Type) : Type := State -> Outcome A * State.

#[global] Instance M_ret : MRet M := fun A a st => (Returned a, st).

#[global] Instance M_bind : MBind M := fun A B f m st =>
  match m st with
  | (Returned a, st') => f a st'
  | (Threw e, st') => (Threw e, st')
  end.

(** [throw error] *)
Definition throw {A} (error : Thrown) : M A := fun st => (Threw error, st).

(** [try { body } catch (error) { handler }]: what [body] did to the state
    before it threw stays done. *)
Definition tryCatch {A} (body : M A) (handler : Thrown -> M A) : M A := fun st =>
  match body st with
  | (Returned a, st') => (Returned a, st')
  | (Threw e, st') => handler e st'
  end.

(** [for (const x of xs) { body }] *)
Fixpoint forOf {A} (xs : list A) (body : A -> M unit) : M unit :=
  match xs with
  | [] => mret tt
  | x :: xs' => body x;; forOf xs' body
  end.

Definition logCall (c : Call) (st : State) : State :=
  {| inventory := inventory st;
     calls := calls st ++ [c];
     publicSubnetIds := publicSubnetIds st |}.

(** [await aws.ec2.getSubnets({ filters })] *)
Definition getSubnets (filters : list Filter) : M GetSubnetsResult := fun st =>
  (subnetsResponse (inventory st) filters, logCall (GetSubnets filters) st).

(** [await aws.ec2.getRouteTable({ filters })] *)
Definition getRouteTable (filters : list Filter) : M GetRouteTableResult := fun st =>
  (routeTableResponse (inventory st) filters, logCall (GetRouteTable filters) st).

(** [xs[0]]: [undefined] (here [None]) on an empty array. *)
Definition first (xs : list string) : option string := xs !! 0.

(** ** src/unnamed/part_000 *)

Module Part000.

(** line 21: [const publicSubnetIds: string[] = [];] *)
Definition newPublicSubnetIds : M unit := fun st =>
  (Returned tt,
   {| inventory := inventory st; calls := calls st; publicSubnetIds := [] |}).

(** lines 32 and 45: [publicSubnetIds.push(subnetId);] *)
Definition push (subnetId : string) : M unit := fun st =>
  (Returned tt,
   {| inventory := inventory st; calls := calls st;
      publicSubnetIds := publicSubnetIds st ++ [subnetId] |}).

(** line 54: the value of [publicSubnetIds] *)
Definition readPublicSubnetIds : M (list string) := fun st =>
  (Returned (publicSubnetIds st), st).

(** lines 30 and 43: [route => route.gatewayId?.startsWith("igw-")];
    [undefined] counts as false for [some]. *)
Definition toInternetGateway (route : Route) : bool :=
  match gatewayId route with
  | Some g => startsWith g "igw-"
  | None => false
  end.

(** lines 30 and 43: [routes.some(...)] *)
Definition isPublic (routeTable : GetRouteTableResult) : bool :=
  some toInternetGateway (routes routeTable).

(** line 36: the test of the [catch] block *)
Definition noExplicitRouteTable (error : Thrown) : bool :=
  instanceofError error &&
  match error with
  | ErrorObject _ message => includes message "query returned no results"
  | OtherValue _ => false
  end.

(** line 18 *)
Definition subnetsFilters (vpc : GetVpcResult) : list Filter :=
  [ {| name := "vpc-id"; values := [id vpc] |} ].

(** line 26 *)
Definition explicitFilters (subnetId : string) : list Filter :=
  [ {| name := "association.subnet-id"; values := [subnetId] |} ].

(** line 39 *)
Definition mainFilters (vpc : GetVpcResult) : list Filter :=
  [ {| name := "vpc-id"; values := [id vpc] |};
    {| name := "association.main"; values := ["true"] |} ].

(** lines 23-51: the body of the loop, for one [subnetId] *)
Definition classifySubnet (vpc : GetVpcResult) (subnetId : string) : M unit :=
  tryCatch
    (routeTable ← getRouteTable (explicitFilters subnetId);
     if isPublic routeTable then push subnetId else mret tt)
    (fun error =>
       if noExplicitRouteTable error then
         mainRouteTable ← getRouteTable (mainFilters vpc);
         if isPublic mainRouteTable then push subnetId else mret tt
       else throw error).

(** lines 15-55: the callback of [defaultVpc.apply] *)
Definition publicSubnets (vpc : GetVpcResult) : M (list string) :=
  subnets ← getSubnets (subnetsFilters vpc);
  newPublicSubnetIds;;
  forOf (ids subnets) (classifySubnet vpc);;
  readPublicSubnetIds.

(** line 177: [subnetId: publicSubnets.apply((subnets) => subnets[0])] *)
Definition sftpInstance_subnetId (vpc : GetVpcResult) : M (option string) :=
  subnets ← publicSubnets vpc;
  mret (first subnets).

(** *** What one turn of the loop amounts to

    The pure reading of [classifySubnet] against a snapshot, used to state
    and prove the properties below ([classifySubnet_run] ties it to the
    code). *)

(** Whether the turn for [subnetId] judges it public, or what it throws. *)
Definition verdict (inv : Inventory) (vpc : GetVpcResult) (subnetId : string)
    : Outcome bool :=
  match routeTableResponse inv (explicitFilters subnetId) with
  | Returned routeTable => Returned (isPublic routeTable)
  | Threw error =>
      if noExplicitRouteTable error then
        match routeTableResponse inv (mainFilters vpc) with
        | Returned mainRouteTable => Returned (isPublic mainRouteTable)
        | Threw error' => Threw error'
        end
      else Threw error
  end.

(** The lookups the turn for [subnetId] issues. *)
Definition lookups (inv : Inventory) (vpc : GetVpcResult) (subnetId : string)
    : list Call :=
  match routeTableResponse inv (explicitFilters subnetId) with
  | Returned _ => [GetRouteTable (explicitFilters subnetId)]
  | Threw error =>
      if noExplicitRouteTable error
      then [GetRouteTable (explicitFilters subnetId); GetRouteTable (mainFilters vpc)]
      else [GetRouteTable (explicitFilters subnetId)]
  end.

Definition judgedPublic (inv : Inventory) (vpc : GetVpcResult) (subnetId : string)
    : bool :=
  match verdict inv vpc subnetId with
  | Returned b => b
  | Threw _ => false
  end.

(** The turn for [subnetId] completes without throwing. *)
Definition classified (inv : Inventory) (vpc : GetVpcResult) (subnetId : string)
    : bool :=
  match verdict inv vpc subnetId with
  | Returned _ => true
  | Threw _ => false
  end.

(** The whole loop over [subnetIds]: how it ends, the lookups it issues and
    the identifiers it pushes, up to the first turn that throws. *)
Fixpoint loopOutcome (inv : Inventory) (vpc : GetVpcResult)
    (subnetIds : list string) : Outcome unit :=
  match subnetIds with
  | [] => Returned tt
  | subnetId :: rest =>
      match verdict inv vpc subnetId with
      | Returned _ => loopOutcome inv vpc rest
      | Threw error => Threw error
      end
  end.

Fixpoint loopCalls (inv : Inventory) (vpc : GetVpcResult)
    (subnetIds : list string) : list Call :=
  match subnetIds with
  | [] => []
  | subnetId :: rest =>
      lookups inv vpc subnetId ++
      match verdict inv vpc subnetId with
      | Returned _ => loopCalls inv vpc rest
      | Threw _ => []
      end
  end.

Fixpoint loopPushed (inv : Inventory) (vpc : GetVpcResult)
    (subnetIds : list string) : list string :=
  match subnetIds with
  | [] => []
  | subnetId :: rest =>
      match verdict inv vpc subnetId with
      | Returned b =>
          (if b then [subnetId] else []) ++ loopPushed inv vpc rest
      | Threw _ => []
      end
  end.

(** The outcome of the whole callback. *)
Definition classification (inv : Inventory) (vpc : GetVpcResult)
    : Outcome (list string) :=
  match subnetsResponse inv (subnetsFilters vpc) with
  | Returned subnets =>
      match loopOutcome inv vpc (ids subnets) with
      | Returned _ => Returned (loopPushed inv vpc (ids subnets))
      | Threw error => Threw error
      end
  | Threw error => Threw error
  end.

End Part000.

(** ** src/index.ts *)

Module IndexTs.

(** lines 14-16: the callback of [defaultVpc.apply] *)
Definition publicSubnets (vpc : GetVpcResult) : M GetSubnetsResult :=
  getSubnets [ {| name := "vpc-id"; values := [id vpc] |} ].

(** line 126: [subnetId: publicSubnets.apply((subnets) => subnets.ids[0])] *)
Definition sftpInstance_subnetId (vpc : GetVpcResult) : M (option string) :=
  subnets ← publicSubnets vpc;
  mret (first (ids subnets)).

End IndexTs.

(** ** The notions of the specification *)

(** A route table has a route to an internet gateway: one of its routes
    has a gateway identifier that begins with [igw-]. *)
Definition hasInternetGatewayRoute (routeTable : GetRouteTableResult) : Prop :=
  exists route g rest,
    route ∈ routes routeTable /\ gatewayId route = Some g /\ g = "igw-" +:+ rest.

(** The effective route table of a subnet: the explicitly associated one
    when the snapshot has one, otherwise the main route table of the VPC. *)
Definition effectiveRouteTable (inv : Inventory) (vpc : GetVpcResult)
    (subnetId : string) : option GetRouteTableResult :=
  match routeTableResponse inv (Part000.explicitFilters subnetId) with
  | Returned routeTable => Some routeTable
  | Threw _ =>
      match routeTableResponse inv (Part000.mainFilters vpc) with
      | Returned mainRouteTable => Some mainRouteTable
      | Threw _ => None
      end
  end.

(** The subnet counts as public in the sense of the specification. *)
Definition publicSubnet (inv : Inventory) (vpc : GetVpcResult)
    (subnetId : string) : Prop :=
  exists routeTable,
    effectiveRouteTable inv vpc subnetId = Some routeTable /\
    hasInternetGatewayRoute routeTable.

(** ** The scenario of the specification *)

Module Scenario.

Definition vpc1 : GetVpcResult := {| id := "vpc-1" |}.

Definition toIgw : Route :=
  {| cidrBlock := "0.0.0.0/0"; gatewayId := Some "igw-1" |}.
Definition toNat : Route :=
  {| cidrBlock := "0.0.0.0/0"; gatewayId := Some "nat-1" |}.
Definition localRoute : Route :=
  {| cidrBlock := "172.31.0.0/16"; gatewayId := None |}.

Definition notFound : Thrown :=
  ErrorObject "Error"
    "invoking aws:ec2/getRouteTable:getRouteTable: query returned no results".
Definition denied : Thrown :=
  ErrorObject "Error" "UnauthorizedOperation: not authorized".

(** A thrown value that is not an [Error] object although its text has the
    words of the marker (as [throw "..."] would throw). *)
Definition notAnError : Thrown := OtherValue "query returned no results".

(** [subnet-a] has the explicit table [rtb-a], with a route to an internet
    gateway; [subnet-p] has the explicit table [rtb-p], with none; the
    lookup for [subnet-x] is denied; the lookup for [subnet-y] throws
    [notAnError]; every other subnet has no explicit table; the lookup of
    the main table of [vpc-1] answers [main]. *)
Definition inventoryWith (subnets : list string)
    (main : Outcome GetRouteTableResult) : Inventory :=
  {| subnetsResponse := fun filters =>
       if decide (filters = Part000.subnetsFilters vpc1)
       then Returned {| ids := subnets |}
       else Threw notFound;
     routeTableResponse := fun filters =>
       if decide (filters = Part000.explicitFilters "subnet-a")
       then Returned {| routeTableId := "rtb-a"; routes := [localRoute; toIgw] |}
       else if decide (filters = Part000.explicitFilters "subnet-p")
       then Returned {| routeTableId := "rtb-p"; routes := [localRoute; toNat] |}
       else if decide (filters = Part000.explicitFilters "subnet-x")
       then Threw denied
       else if decide (filters = Part000.explicitFilters "subnet-y")
       then Threw notAnError
       else if decide (filters = Part000.mainFilters vpc1)
       then main
       else Threw notFound |}.

Definition start (inv : Inventory) : State :=
  {| inventory := inv; calls := []; publicSubnetIds := [] |}.

Definition mainIgw : Outcome GetRouteTableResult :=
  Returned {| routeTableId := "rtb-main"; routes := [localRoute; toIgw] |}.
Definition mainNat : Outcome GetRouteTableResult :=
  Returned {| routeTableId := "rtb-main"; routes := [localRoute; toNat] |}.

End Scenario.

(** ** Accounting for the lookups of a run *)

#[global] Instance Call_eq_dec : EqDecision Call.
Proof. solve_decision. Defined.

(** The lookups that a run of the classification adds to the log. *)
Definition issued (vpc : GetVpcResult) (st : State) : list Call :=
  drop (length (calls st)) (calls (Part000.publicSubnets vpc st).2).

(** The explicit lookup for the subnet returns a table. *)
Definition hasExplicitTable (inv : Inventory) (subnetId : string) : bool :=
  match routeTableResponse inv (Part000.explicitFilters subnetId) with
  | Returned _ => true
  | Threw _ => false
  end.

(** The explicit lookup for the subnet throws an error from which the
    [catch] block recovers. *)
Definition lacksExplicitTable (inv : Inventory) (subnetId : string) : bool :=
  match routeTableResponse inv (Part000.explicitFilters subnetId) with
  | Returned _ => false
  | Threw error => Part000.noExplicitRouteTable error
  end.

(** ** The declarations both programs share

    Configuration, the DNS record, the exported endpoint and the two policy
    documents read the same in src/unnamed/part_000 and in src/index.ts. *)

Module Stack.

(** [a || b] on an optional string: [undefined] and the empty string are
    falsy. *)
Definition orElse (a : option string) (b : string) : string :=
  match a with
  | Some EmptyString => b
  | Some s => s
  | None => b
  end.

(** part_000 and index.ts, line 8:
    [config.get("instanceType") || "t3.micro"], as a function of what
    [config.get] returns. *)
Definition instanceType (configured : option string) : string :=
  orElse configured "t3.micro".

(** part_000 line 251, index.ts line 191: [`${subDomain}.${domainName}`] *)
Definition dnsRecord_name (subDomain domainName : string) : string :=
  subDomain +:+ "." +:+ domainName.

(** part_000 line 258, index.ts line 198: the exported message, once
    [elasticIp.publicIp] is known. *)
Definition sftpEndpoint (subDomain domainName publicIp : string) : string :=
  "SFTP endpoint is " +:+ subDomain +:+ "." +:+ domainName +:+ " at " +:+ publicIp.

(** A policy field that holds a string or an array of strings. *)
Inductive Strings : Type :=
| One (s : string)
| Many (ss : list string).

Definition toList (x : Strings) : list string :=
  match x with
  | One s => [s]
  | Many ss => ss
  end.

(** [Principal: "*"] or [Principal: { AWS: arn }] *)
Inductive PrincipalSpec : Type :=
| Everyone
| Aws (arn : string).

(** [Condition: { operator: { key: value } }] *)
Record ConditionSpec := { operator : string; key : string; value : string }.

Record PolicyStatement := {
  Effect : string;
  Principal : option PrincipalSpec;
  Action : Strings;
  Resource : Strings;
  Condition : option ConditionSpec
}.

Record PolicyDocument := { Version : string; Statement : list PolicyStatement }.

(** part_000 lines 113-142, index.ts lines 62-91: the object handed to
    [JSON.stringify] for the bucket policy. *)
Definition sftpBucketPolicy (bucketArn roleArn : string) : PolicyDocument :=
  {| Version := "2012-10-17";
     Statement :=
       [ {| Effect := "Deny";
            Principal := Some Everyone;
            Action := One "s3:*";
            Resource := Many [bucketArn; bucketArn +:+ "/*"];
            Condition :=
              Some {| operator := "Bool"; key := "aws:SecureTransport";
                      value := "false" |} |};
         {| Effect := "Allow";
            Principal := Some (Aws roleArn);
            Action := One "s3:ListBucket";
            Resource := One bucketArn;
            Condition := None |};
         {| Effect := "Allow";
            Principal := Some (Aws roleArn);
            Action := Many ["s3:GetObject"];
            Resource := Many [bucketArn +:+ "/firmwares/*";
                              bucketArn +:+ "/diagnostics/*"];
            Condition := None |};
         {| Effect := "Allow";
            Principal := Some (Aws roleArn);
            Action := Many ["s3:PutObject"; "s3:DeleteObject"];
            Resource := One (bucketArn +:+ "/diagnostics/*");
            Condition := None |} ] |}.

(** part_000 lines 148-159, index.ts lines 97-108: the object handed to
    [JSON.stringify] for the policy attached to the role. *)
Definition s3AccessPolicy (bucketArn : string) : PolicyDocument :=
  {| Version := "2012-10-17";
     Statement :=
       [ {| Effect := "Allow"; Principal := None;
            Action := One "s3:ListBucket";
            Resource := One bucketArn; Condition := None |};
         {| Effect := "Allow"; Principal := None;
            Action := One "s3:GetObject";
            Resource := One (bucketArn +:+ "/firmwares/*"); Condition := None |};
         {| Effect := "Allow"; Principal := None;
            Action := Many ["s3:GetObject"; "s3:PutObject"; "s3:DeleteObject"];
            Resource := One (bucketArn +:+ "/diagnostics/*");
            Condition := None |} ] |}.

(** A statement with [Effect: "Allow"] lets [action] act on [resource]:
    both are listed in it, literally. *)
Definition allowsIn (stmt : PolicyStatement) (action resource : string) : Prop :=
  Effect stmt = "Allow" /\
  action ∈ toList (Action stmt) /\ resource ∈ toList (Resource stmt).

(** Some statement of the document allows the pair. *)
Definition allows (doc : PolicyDocument) (action resource : string) : Prop :=
  exists stmt, stmt ∈ Statement doc /\ allowsIn stmt action resource.

End Stack.

(** * Properties *)

(** ** Strings *)

Lemma startsWith_spec (s p : string) :
  startsWith s p = true <-> exists rest, s = p +:+ rest.
Proof.
  unfold startsWith. revert s.
  induction p as [|c p IH]; intros s.
  - split; [intros _; exists s; reflexivity | intros _; destruct s; reflexivity].
  - destruct s as [|d s]; simpl.
    + split; [discriminate | intros [rest H]; discriminate].
    + destruct (Ascii.ascii_dec c d) as [->|Hne].
      * rewrite IH. split; intros [rest H]; exists rest; [now rewrite H | now inversion H].
      * split; [discriminate | intros [rest H]; inversion H; congruence].
Qed.

Lemma includes_spec (s p : string) :
  includes s p = true <-> exists before after, s = before +:+ p +:+ after.
Proof.
  induction s as [|c s IH]; cbn [includes]; fold (startsWith "" p);
    try fold (startsWith (String c s) p); rewrite orb_true_iff, startsWith_spec.
  - split.
    + intros [[rest H] | H]; [|discriminate]. exists "", rest. exact H.
    + intros [[|d before] [after H]]; simpl in H; [eauto | discriminate].
  - rewrite IH. split.
    + intros [[rest H] | [before [after H]]].
      * exists "", rest. exact H.
      * exists (String c before), after. simpl. now rewrite H.
    + intros [[|d before] [after H]]; simpl in H.
      * left. eauto.
      * right. inversion H. eauto.
Qed.

(** ** The scenario, run *)

Example scenario_both_public :
  fst (Part000.publicSubnets Scenario.vpc1
         (Scenario.start (Scenario.inventoryWith ["subnet-a"; "subnet-b"] Scenario.mainIgw)))
  = Returned ["subnet-a"; "subnet-b"].
Proof. vm_compute. reflexivity. Qed.

Example scenario_nat_main :
  fst (Part000.publicSubnets Scenario.vpc1
         (Scenario.start (Scenario.inventoryWith ["subnet-a"; "subnet-b"] Scenario.mainNat)))
  = Returned ["subnet-a"].
Proof. vm_compute. reflexivity. Qed.

Example scenario_private_first :
  fst (Part000.publicSubnets Scenario.vpc1
         (Scenario.start (Scenario.inventoryWith ["subnet-p"; "subnet-b"] Scenario.mainIgw)))
  = Returned ["subnet-b"].
Proof. vm_compute. reflexivity. Qed.

Example scenario_denied :
  fst (Part000.publicSubnets Scenario.vpc1
         (Scenario.start (Scenario.inventoryWith ["subnet-a"; "subnet-x"] Scenario.mainIgw)))
  = Threw Scenario.denied.
Proof. vm_compute. reflexivity. Qed.

Example scenario_index_ts :
  fst (IndexTs.sftpInstance_subnetId Scenario.vpc1
         (Scenario.start (Scenario.inventoryWith ["subnet-p"; "subnet-b"] Scenario.mainIgw)))
  = Returned (Some "subnet-p").
Proof. vm_compute. reflexivity. Qed.

Example includes_marker :
  includes "getRouteTable: query returned no results (404)" "query returned no results"
  = true /\
  includes "query returned no result" "query returned no results" = false /\
  startsWith "igw-0a1b" "igw-" = true /\
  startsWith "vgw-igw-1" "igw-" = false.
Proof. vm_compute. auto. Qed.

(** ** The code against its pure reading *)

Section Run.

Import Part000.

Variable vpc : GetVpcResult.

Lemma isPublic_spec (routeTable : GetRouteTableResult) :
  isPublic routeTable = true <-> hasInternetGatewayRoute routeTable.
Proof.
  unfold isPublic, some, hasInternetGatewayRoute. rewrite existsb_exists. split.
  - intros (route & Hin & Hto). unfold toInternetGateway in Hto.
    destruct (gatewayId route) as [g|] eqn:Hg; [|discriminate].
    apply startsWith_spec in Hto as [rest ->].
    exists route, ("igw-" +:+ rest), rest. rewrite list_elem_of_In. auto.
  - intros (route & g & rest & Hin & Hg & ->). exists route.
    rewrite <- list_elem_of_In. split; [assumption|].
    unfold toInternetGateway. rewrite Hg. apply startsWith_spec. eauto.
Qed.

(** One turn of the loop. *)
Lemma classifySubnet_run (subnetId : string) (st : State) :
  classifySubnet vpc subnetId st =
  (match verdict (inventory st) vpc subnetId with
   | Returned _ => Returned tt
   | Threw error => Threw error
   end,
   {| inventory := inventory st;
      calls := calls st ++ lookups (inventory st) vpc subnetId;
      publicSubnetIds :=
        publicSubnetIds st ++
        (if judgedPublic (inventory st) vpc subnetId then [subnetId] else []) |}).
Proof.
  unfold classifySubnet, tryCatch, judgedPublic, verdict, lookups, getRouteTable,
    mbind, M_bind, mret, M_ret, push, throw, logCall.
  destruct st as [inv cs ps]; simpl.
  destruct (routeTableResponse inv (explicitFilters subnetId)) as [rt|error]; simpl.
  - destruct (isPublic rt); simpl; rewrite ?app_nil_r; reflexivity.
  - destruct (noExplicitRouteTable error); simpl.
    + destruct (routeTableResponse inv (mainFilters vpc)) as [rt|error']; simpl.
      * destruct (isPublic rt); simpl; rewrite ?app_nil_r, <- ?app_assoc; reflexivity.
      * rewrite app_nil_r, <- app_assoc. reflexivity.
    + rewrite app_nil_r. reflexivity.
Qed.

(** The loop. *)
Lemma forOf_run (subnetIds : list string) (st : State) :
  forOf subnetIds (classifySubnet vpc) st =
  (loopOutcome (inventory st) vpc subnetIds,
   {| inventory := inventory st;
      calls := calls st ++ loopCalls (inventory st) vpc subnetIds;
      publicSubnetIds :=
        publicSubnetIds st ++ loopPushed (inventory st) vpc subnetIds |}).
Proof.
  revert st. induction subnetIds as [|s rest IH]; intros st.
  - destruct st; simpl. unfold mret, M_ret. rewrite !app_nil_r. reflexivity.
  - cbn [forOf]. unfold mbind, M_bind. rewrite classifySubnet_run.
    unfold judgedPublic. cbn [loopOutcome loopCalls loopPushed].
    destruct (verdict (inventory st) vpc s) as [b|error].
    + rewrite IH. cbn [inventory calls publicSubnetIds].
      rewrite <- !app_assoc. reflexivity.
    + rewrite !app_nil_r. reflexivity.
Qed.

(** The whole callback. *)
Lemma publicSubnets_run (st : State) :
  publicSubnets vpc st =
  match subnetsResponse (inventory st) (subnetsFilters vpc) with
  | Returned subnets =>
      (match loopOutcome (inventory st) vpc (ids subnets) with
       | Returned _ => Returned (loopPushed (inventory st) vpc (ids subnets))
       | Threw error => Threw error
       end,
       {| inventory := inventory st;
          calls := calls st ++ GetSubnets (subnetsFilters vpc)
                     :: loopCalls (inventory st) vpc (ids subnets);
          publicSubnetIds := loopPushed (inventory st) vpc (ids subnets) |})
  | Threw error => (Threw error, logCall (GetSubnets (subnetsFilters vpc)) st)
  end.
Proof.
  unfold publicSubnets, getSubnets, newPublicSubnetIds, readPublicSubnetIds.
  unfold mbind at 1, M_bind at 1.
  destruct (subnetsResponse (inventory st) (subnetsFilters vpc)) as [subnets|error];
    [|reflexivity].
  unfold mbind at 1, M_bind at 1. unfold mbind, M_bind. rewrite forOf_run.
  cbn [inventory calls publicSubnetIds logCall].
  destruct (loopOutcome (inventory st) vpc (ids subnets));
    rewrite <- app_assoc; reflexivity.
Qed.

Lemma publicSubnets_outcome (st : State) :
  (publicSubnets vpc st).1 = classification (inventory st) vpc.
Proof.
  rewrite publicSubnets_run. unfold classification.
  destruct (subnetsResponse (inventory st) (subnetsFilters vpc)); reflexivity.
Qed.

Lemma publicSubnets_inventory (st : State) :
  inventory (publicSubnets vpc st).2 = inventory st.
Proof.
  rewrite publicSubnets_run.
  destruct (subnetsResponse (inventory st) (subnetsFilters vpc)); reflexivity.
Qed.

End Run.

(** ** The pure reading of the loop *)

Section Loop.

Import Part000.

Variables (inv : Inventory) (vpc : GetVpcResult).

Lemma loopOutcome_returned (subnetIds : list string) :
  loopOutcome inv vpc subnetIds = Returned tt <->
  forallb (classified inv vpc) subnetIds = true.
Proof.
  induction subnetIds as [|s rest IH]; simpl; [tauto|].
  unfold classified at 1. destruct (verdict inv vpc s); simpl; [exact IH|].
  split; discriminate.
Qed.

Lemma loopOutcome_first_throw (before after : list string) (s : string) (error : Thrown) :
  forallb (classified inv vpc) before = true ->
  verdict inv vpc s = Threw error ->
  loopOutcome inv vpc (before ++ s :: after) = Threw error.
Proof.
  intros Hbefore Hs. induction before as [|p before IH]; simpl in *.
  - now rewrite Hs.
  - apply andb_true_iff in Hbefore as [Hp Hbefore]. unfold classified in Hp.
    destruct (verdict inv vpc p); [auto | discriminate].
Qed.

Lemma loopPushed_filter (subnetIds : list string) :
  forallb (classified inv vpc) subnetIds = true ->
  loopPushed inv vpc subnetIds = List.filter (judgedPublic inv vpc) subnetIds.
Proof.
  induction subnetIds as [|s rest IH]; simpl; [reflexivity|].
  unfold classified at 1, judgedPublic at 1.
  destruct (verdict inv vpc s) as [[|]|]; simpl; intros H;
    [rewrite IH by assumption; reflexivity .. | discriminate].
Qed.

(** Whatever the loop has pushed keeps the order of the enumeration, also
    when a later turn throws. *)
Lemma loopPushed_sublist (subnetIds : list string) :
  sublist (loopPushed inv vpc subnetIds) subnetIds.
Proof.
  induction subnetIds as [|s rest IH]; simpl; [constructor|].
  destruct (verdict inv vpc s) as [[|]|]; simpl.
  - now apply sublist_skip.
  - now apply sublist_cons.
  - apply sublist_nil_l.
Qed.

(** For a subnet whose turn does not throw, the judgement of the code is
    the notion of the specification. *)
Lemma judgedPublic_spec (s : string) :
  classified inv vpc s = true ->
  (judgedPublic inv vpc s = true <-> publicSubnet inv vpc s).
Proof.
  unfold classified, judgedPublic, verdict, publicSubnet, effectiveRouteTable.
  destruct (routeTableResponse inv (explicitFilters s)) as [rt|error].
  - intros _. rewrite isPublic_spec. split.
    + intros H. exists rt. auto.
    + intros (rt' & [= <-] & H). exact H.
  - destruct (noExplicitRouteTable error); [|discriminate].
    destruct (routeTableResponse inv (mainFilters vpc)) as [rt|error']; [|discriminate].
    intros _. rewrite isPublic_spec. split.
    + intros H. exists rt. auto.
    + intros (rt' & [= <-] & H). exact H.
Qed.

End Loop.

(** When does the callback return?  Exactly when the enumeration succeeds
    and no turn of the loop throws; it then returns the subnets judged
    public, in the order of the enumeration. *)
Lemma publicSubnets_returns (vpc : GetVpcResult) (st : State) (result : list string) :
  (Part000.publicSubnets vpc st).1 = Returned result <->
  exists subnets,
    subnetsResponse (inventory st) (Part000.subnetsFilters vpc) = Returned subnets /\
    forallb (Part000.classified (inventory st) vpc) (ids subnets) = true /\
    result = List.filter (Part000.judgedPublic (inventory st) vpc) (ids subnets).
Proof.
  rewrite publicSubnets_run.
  destruct (subnetsResponse (inventory st) (Part000.subnetsFilters vpc))
    as [subnets|error]; simpl.
  - destruct (Part000.loopOutcome (inventory st) vpc (ids subnets)) as [[]|error] eqn:Hloop.
    + apply loopOutcome_returned in Hloop. rewrite loopPushed_filter by assumption.
      split.
      * intros [= <-]. eauto.
      * intros (subnets' & [= <-] & _ & ->). reflexivity.
    + split; [discriminate|]. intros (subnets' & [= <-] & Hall & _).
      apply loopOutcome_returned in Hall. congruence.
  - split; [discriminate|]. intros (subnets' & [=] & _).
Qed.

(** Membership in the result of a classification that returns. *)
Lemma result_membership (vpc : GetVpcResult) (st : State) (result : list string)
    (s : string) :
  (Part000.publicSubnets vpc st).1 = Returned result ->
  (s ∈ result <->
   match subnetsResponse (inventory st) (Part000.subnetsFilters vpc) with
   | Returned subnets => s ∈ ids subnets
   | Threw _ => False
   end /\ publicSubnet (inventory st) vpc s).
Proof.
  intros Hrun. apply publicSubnets_returns in Hrun as (subnets & -> & Hall & ->).
  rewrite !list_elem_of_In, filter_In. rewrite forallb_forall in Hall.
  split; intros [Hin H]; (split; [exact Hin|]); apply judgedPublic_spec; auto.
Qed.

(** ** Throwing turns *)

Section Throw.

Import Part000.

Variables (inv : Inventory) (vpc : GetVpcResult).

(** The test of the [catch] block, spelled out. *)
Lemma noExplicitRouteTable_spec (error : Thrown) :
  noExplicitRouteTable error = true <->
  exists name message before rest,
    error = ErrorObject name message /\
    message = before +:+ "query returned no results" +:+ rest.
Proof.
  destruct error as [name message|text].
  - change (noExplicitRouteTable (ErrorObject name message))
      with (includes message "query returned no results").
    rewrite includes_spec. split.
    + intros (before & rest & H). exists name, message, before, rest. auto.
    + intros (name' & message' & before & rest & [= _ <-] & H). eauto.
  - split; [discriminate|]. intros (name' & message' & before & rest & [=] & _).
Qed.

(** [classified] says of the code that the turn returns. *)
Lemma classified_spec (s : string) (st : State) :
  inventory st = inv ->
  (classified inv vpc s = true <-> (classifySubnet vpc s st).1 = Returned tt).
Proof.
  intros Hinv. rewrite classifySubnet_run, Hinv. unfold classified. simpl.
  destruct (verdict inv vpc s) as [b|error]; split; auto; discriminate.
Qed.

Lemma loopPushed_first_throw (before after : list string) (s : string) (error : Thrown) :
  forallb (classified inv vpc) before = true ->
  verdict inv vpc s = Threw error ->
  loopPushed inv vpc (before ++ s :: after) =
  List.filter (judgedPublic inv vpc) before.
Proof.
  intros Hbefore Hs. induction before as [|p before IH]; simpl in *.
  - now rewrite Hs.
  - apply andb_true_iff in Hbefore as [Hp Hbefore].
    unfold classified in Hp. unfold judgedPublic at 1.
    destruct (verdict inv vpc p) as [[|]|]; [| |discriminate]; simpl;
      rewrite IH by assumption; reflexivity.
Qed.

(** The first turn that throws ends the callback with what it threw; the
    array then holds what the earlier turns pushed. *)
Lemma publicSubnets_first_throw (st : State) (subnets : GetSubnetsResult)
    (before after : list string) (s : string) (error : Thrown) :
  inventory st = inv ->
  subnetsResponse inv (subnetsFilters vpc) = Returned subnets ->
  ids subnets = before ++ s :: after ->
  forallb (classified inv vpc) before = true ->
  verdict inv vpc s = Threw error ->
  (publicSubnets vpc st).1 = Threw error /\
  publicSubnetIds (publicSubnets vpc st).2 = List.filter (judgedPublic inv vpc) before.
Proof.
  intros Hinv Hsub Hids Hbefore Hs. rewrite publicSubnets_run, Hinv, Hsub, Hids.
  rewrite (loopOutcome_first_throw _ _ _ _ _ _ Hbefore Hs).
  rewrite (loopPushed_first_throw _ _ _ _ Hbefore Hs). auto.
Qed.

End Throw.

(** * The claims *)

(** C1.  When the classification returns, a subnet identifier is in the
    result if and only if it is one of the enumerated subnets and its
    effective route table (the explicit one when the snapshot has one,
    otherwise the main one of the VPC) has a route whose gateway identifier
    begins with [igw-].  In particular an enumerated subnet whose explicit
    route table has only routes with no gateway or with a gateway that is
    not an internet gateway is not in the result. *)
Theorem C1_public_iff_internet_gateway_route
    (vpc : GetVpcResult) (st : State) (result : list string) :
  (Part000.publicSubnets vpc st).1 = Returned result ->
  exists subnets,
    subnetsResponse (inventory st) (Part000.subnetsFilters vpc) = Returned subnets /\
    (forall s, s ∈ result <-> s ∈ ids subnets /\ publicSubnet (inventory st) vpc s) /\
    (forall s routeTable,
        s ∈ ids subnets ->
        routeTableResponse (inventory st) (Part000.explicitFilters s)
          = Returned routeTable ->
        (forall route, route ∈ routes routeTable ->
           gatewayId route = None \/
           exists g, gatewayId route = Some g /\ ~ exists rest, g = "igw-" +:+ rest) ->
        s ∉ result).
Proof.
  intros Hrun.
  destruct (proj1 (publicSubnets_returns vpc st result) Hrun) as (subnets & Hsub & _).
  exists subnets. split; [exact Hsub|].
  assert (Hiff : forall s,
    s ∈ result <-> s ∈ ids subnets /\ publicSubnet (inventory st) vpc s).
  { intros s. rewrite (result_membership vpc st result s Hrun), Hsub. reflexivity. }
  split; [exact Hiff|].
  intros s rt Hin Hrt Hroutes Hres. apply Hiff in Hres as [_ (rt' & Heff & Higw)].
  unfold effectiveRouteTable in Heff. rewrite Hrt in Heff. injection Heff as <-.
  destruct Higw as (route & g & rest & Hroute & Hg & ->).
  destruct (Hroutes route Hroute) as [Hnone | (g' & Hg' & Hno)]; [congruence|].
  apply Hno. exists rest. congruence.
Qed.

Lemma C1_witness :
  exists subnets,
    subnetsResponse (Scenario.inventoryWith ["subnet-p"; "subnet-a"; "subnet-b"] Scenario.mainIgw)
      (Part000.subnetsFilters Scenario.vpc1) = Returned subnets /\
    (forall s, s ∈ ["subnet-a"; "subnet-b"] <->
       s ∈ ids subnets /\
       publicSubnet (Scenario.inventoryWith ["subnet-p"; "subnet-a"; "subnet-b"] Scenario.mainIgw)
         Scenario.vpc1 s) /\
    (forall s routeTable,
        s ∈ ids subnets ->
        routeTableResponse (Scenario.inventoryWith ["subnet-p"; "subnet-a"; "subnet-b"] Scenario.mainIgw)
          (Part000.explicitFilters s) = Returned routeTable ->
        (forall route, route ∈ routes routeTable ->
           gatewayId route = None \/
           exists g, gatewayId route = Some g /\ ~ exists rest, g = "igw-" +:+ rest) ->
        s ∉ ["subnet-a"; "subnet-b"]).
Proof.
  apply (C1_public_iff_internet_gateway_route Scenario.vpc1
           (Scenario.start
              (Scenario.inventoryWith ["subnet-p"; "subnet-a"; "subnet-b"] Scenario.mainIgw))
           ["subnet-a"; "subnet-b"]).
  vm_compute. reflexivity.
Defined.

(** C4.  The sequence returned by the classification is a subsequence of
    the enumeration of the subnets: the public subnets come in the order
    in which they were enumerated, whichever lookup decided each of them. *)
Theorem C4_result_in_enumeration_order
    (vpc : GetVpcResult) (st : State) (result : list string) :
  (Part000.publicSubnets vpc st).1 = Returned result ->
  exists subnets,
    subnetsResponse (inventory st) (Part000.subnetsFilters vpc) = Returned subnets /\
    sublist result (ids subnets).
Proof.
  rewrite publicSubnets_run.
  destruct (subnetsResponse (inventory st) (Part000.subnetsFilters vpc))
    as [subnets|error]; simpl; [|discriminate].
  destruct (Part000.loopOutcome (inventory st) vpc (ids subnets)); [|discriminate].
  intros [= <-]. exists subnets. split; [reflexivity|]. apply loopPushed_sublist.
Qed.

Lemma C4_witness :
  exists subnets,
    subnetsResponse (Scenario.inventoryWith ["subnet-b"; "subnet-p"; "subnet-a"; "subnet-c"] Scenario.mainIgw)
      (Part000.subnetsFilters Scenario.vpc1) = Returned subnets /\
    sublist ["subnet-b"; "subnet-a"; "subnet-c"] (ids subnets).
Proof.
  apply (C4_result_in_enumeration_order Scenario.vpc1
           (Scenario.start
              (Scenario.inventoryWith ["subnet-b"; "subnet-p"; "subnet-a"; "subnet-c"]
                 Scenario.mainIgw))).
  vm_compute. reflexivity.
Defined.

(** C10.  On an empty enumeration the classification returns the empty
    sequence, and the only lookup it has issued is the enumeration itself:
    no route table is looked up. *)
Theorem C10_empty_enumeration (vpc : GetVpcResult) (st : State) :
  subnetsResponse (inventory st) (Part000.subnetsFilters vpc) = Returned {| ids := [] |} ->
  Part000.publicSubnets vpc st =
  (Returned [],
   {| inventory := inventory st;
      calls := calls st ++ [GetSubnets (Part000.subnetsFilters vpc)];
      publicSubnetIds := [] |}).
Proof.
  intros H. rewrite publicSubnets_run, H. reflexivity.
Qed.

Lemma C10_witness :
  Part000.publicSubnets Scenario.vpc1
    (Scenario.start (Scenario.inventoryWith [] Scenario.mainIgw)) =
  (Returned [],
   {| inventory := Scenario.inventoryWith [] Scenario.mainIgw;
      calls := [] ++ [GetSubnets (Part000.subnetsFilters Scenario.vpc1)];
      publicSubnetIds := [] |}).
Proof.
  apply (C10_empty_enumeration Scenario.vpc1
           (Scenario.start (Scenario.inventoryWith [] Scenario.mainIgw))).
  reflexivity.
Defined.

(** C9.  The classification is a function of the snapshot alone: run a
    second time, from the state the first run left, it gives the same
    outcome; a run leaves the snapshot as it found it; and the outcome does
    not depend on the lookups logged or the array left by anything that ran
    before. *)
Theorem C9_classification_is_deterministic (vpc : GetVpcResult) (st : State) :
  let run1 := Part000.publicSubnets vpc st in
  let run2 := Part000.publicSubnets vpc run1.2 in
  run2.1 = run1.1 /\
  inventory run1.2 = inventory st /\
  forall earlierCalls leftOver,
    (Part000.publicSubnets vpc
       {| inventory := inventory st; calls := earlierCalls;
          publicSubnetIds := leftOver |}).1 = run1.1.
Proof.
  cbv zeta. rewrite !publicSubnets_outcome, publicSubnets_inventory.
  split; [reflexivity|]. split; [reflexivity|].
  intros earlierCalls leftOver. rewrite publicSubnets_outcome. reflexivity.
Qed.

(** In src/unnamed/part_000 the subnet handed to the instance is the first
    element of the sequence the classification returns, whenever that
    sequence is not empty. *)
Lemma Part000_placement_is_head_of_result
    (vpc : GetVpcResult) (st : State) (s : string) (rest : list string) :
  (Part000.publicSubnets vpc st).1 = Returned (s :: rest) ->
  (Part000.sftpInstance_subnetId vpc st).1 = Returned (Some s).
Proof.
  unfold Part000.sftpInstance_subnetId, mbind, M_bind.
  destruct (Part000.publicSubnets vpc st) as [[result|error] st']; simpl.
  - intros [= ->]. reflexivity.
  - discriminate.
Qed.

(** C5.  The subnet handed to the instance is to be the first of the
    public subnets.  src/unnamed/part_000 hands over that one on every
    snapshot ([Part000_placement_is_head_of_result]); src/index.ts, whose
    comment at line 12 announces the public subnets and which names its
    output [publicSubnets], does not.  On the enumeration
    [subnet-p; subnet-a], where the explicit table of [subnet-p] has no route
    to an internet gateway and that of [subnet-a] has one, the sequence of
    public subnets is [subnet-a] and part_000 hands over [subnet-a], while
    index.ts hands over [subnet-p], which is not public. *)
Theorem C5_index_ts_places_instance_in_private_subnet :
  let vpc := Scenario.vpc1 in
  let st :=
    Scenario.start (Scenario.inventoryWith ["subnet-p"; "subnet-a"] Scenario.mainIgw) in
  (Part000.publicSubnets vpc st).1 = Returned ["subnet-a"] /\
  (Part000.sftpInstance_subnetId vpc st).1 = Returned (Some "subnet-a") /\
  (IndexTs.sftpInstance_subnetId vpc st).1 = Returned (Some "subnet-p") /\
  ~ publicSubnet (inventory st) vpc "subnet-p".
Proof.
  cbv zeta. split; [vm_compute; reflexivity|].
  split; [vm_compute; reflexivity|]. split; [vm_compute; reflexivity|].
  intros (routeTable & Heff & Higw).
  vm_compute in Heff. injection Heff as <-.
  apply isPublic_spec in Higw. vm_compute in Higw. discriminate Higw.
Qed.

(** C2.  Let the lookups of the subnets enumerated before [s] succeed or
    be recovered, so that the turn of [s] is reached, and let a lookup of
    that turn (the explicit one, or the one of the main route table after a
    recovered explicit one) throw an [error] that the [catch] block does not
    take for a missing route table.  Then the classification call ends by
    throwing that very [error]: the identifiers pushed so far stay in the
    array and the caller is handed none of them. *)
Theorem C2_fatal_lookup_aborts_classification
    (vpc : GetVpcResult) (st : State) (subnets : GetSubnetsResult)
    (before after : list string) (s : string) (error : Thrown) :
  subnetsResponse (inventory st) (Part000.subnetsFilters vpc) = Returned subnets ->
  ids subnets = before ++ s :: after ->
  forallb (Part000.classified (inventory st) vpc) before = true ->
  Part000.noExplicitRouteTable error = false ->
  (routeTableResponse (inventory st) (Part000.explicitFilters s) = Threw error \/
   exists recovered,
     routeTableResponse (inventory st) (Part000.explicitFilters s) = Threw recovered /\
     Part000.noExplicitRouteTable recovered = true /\
     routeTableResponse (inventory st) (Part000.mainFilters vpc) = Threw error) ->
  (Part000.publicSubnets vpc st).1 = Threw error /\
  (forall result, (Part000.publicSubnets vpc st).1 <> Returned result) /\
  publicSubnetIds (Part000.publicSubnets vpc st).2 =
    List.filter (Part000.judgedPublic (inventory st) vpc) before.
Proof.
  intros Hsub Hids Hbefore Hfatal Hlookup.
  assert (Hs : Part000.verdict (inventory st) vpc s = Threw error).
  { unfold Part000.verdict.
    destruct Hlookup as [-> | (recovered & -> & -> & ->)]; [|reflexivity].
    now rewrite Hfatal. }
  destruct (publicSubnets_first_throw (inventory st) vpc st subnets before after s error
              eq_refl Hsub Hids Hbefore Hs) as [Hout Hleft].
  split; [exact Hout|]. split; [|exact Hleft].
  intros result. rewrite Hout. discriminate.
Qed.

Lemma C2_witness :
  (Part000.publicSubnets Scenario.vpc1
     (Scenario.start
        (Scenario.inventoryWith ["subnet-a"; "subnet-x"; "subnet-b"] Scenario.mainIgw))).1
    = Threw Scenario.denied /\
  (forall result,
     (Part000.publicSubnets Scenario.vpc1
        (Scenario.start
           (Scenario.inventoryWith ["subnet-a"; "subnet-x"; "subnet-b"] Scenario.mainIgw))).1
     <> Returned result) /\
  publicSubnetIds
    (Part000.publicSubnets Scenario.vpc1
       (Scenario.start
          (Scenario.inventoryWith ["subnet-a"; "subnet-x"; "subnet-b"] Scenario.mainIgw))).2
    = ["subnet-a"].
Proof.
  apply (C2_fatal_lookup_aborts_classification Scenario.vpc1
           (Scenario.start
              (Scenario.inventoryWith ["subnet-a"; "subnet-x"; "subnet-b"] Scenario.mainIgw))
           {| ids := ["subnet-a"; "subnet-x"; "subnet-b"] |}
           ["subnet-a"] ["subnet-b"] "subnet-x" Scenario.denied).
  - reflexivity.
  - reflexivity.
  - vm_compute. reflexivity.
  - vm_compute. reflexivity.
  - left. reflexivity.
Defined.

(** C3.  Let the explicit lookup for [s] throw an error that the [catch]
    block takes for a missing route table, and let the lookup of the main
    route table of the VPC (filters [vpc-id] and [association.main = true])
    return [mainRouteTable].  Then the turn for [s] recovers: it returns
    after exactly these two lookups and pushes [s] if and only if
    [mainRouteTable] has a route to an internet gateway.  The rule is the one
    of the explicit path: a subnet with that same table explicitly
    associated is pushed under the same condition.  And whenever the whole
    classification returns, an enumerated [s] is in its result if and only
    if [mainRouteTable] has a route to an internet gateway. *)
Theorem C3_missing_explicit_table_falls_back_to_main
    (vpc : GetVpcResult) (st : State) (s : string) (error : Thrown)
    (mainRouteTable : GetRouteTableResult) :
  routeTableResponse (inventory st) (Part000.explicitFilters s) = Threw error ->
  Part000.noExplicitRouteTable error = true ->
  routeTableResponse (inventory st)
    [ {| name := "vpc-id"; values := [id vpc] |};
      {| name := "association.main"; values := ["true"] |} ] = Returned mainRouteTable ->
  Part000.classifySubnet vpc s st =
    (Returned tt,
     {| inventory := inventory st;
        calls := calls st ++
          [ GetRouteTable (Part000.explicitFilters s);
            GetRouteTable [ {| name := "vpc-id"; values := [id vpc] |};
                            {| name := "association.main"; values := ["true"] |} ] ];
        publicSubnetIds :=
          publicSubnetIds st ++
          (if Part000.isPublic mainRouteTable then [s] else []) |}) /\
  (Part000.isPublic mainRouteTable = true <-> hasInternetGatewayRoute mainRouteTable) /\
  (forall s' st',
     routeTableResponse (inventory st') (Part000.explicitFilters s')
       = Returned mainRouteTable ->
     publicSubnetIds (Part000.classifySubnet vpc s' st').2 =
       publicSubnetIds st' ++ (if Part000.isPublic mainRouteTable then [s'] else [])) /\
  (forall subnets result,
     subnetsResponse (inventory st) (Part000.subnetsFilters vpc) = Returned subnets ->
     s ∈ ids subnets ->
     (Part000.publicSubnets vpc st).1 = Returned result ->
     (s ∈ result <-> hasInternetGatewayRoute mainRouteTable)).
Proof.
  intros Hexplicit Hmissing Hmain.
  change [ {| name := "vpc-id"; values := [id vpc] |};
           {| name := "association.main"; values := ["true"] |} ]
    with (Part000.mainFilters vpc) in *.
  split; [|split; [|split]].
  - rewrite classifySubnet_run.
    unfold Part000.judgedPublic, Part000.verdict, Part000.lookups.
    rewrite Hexplicit, Hmissing, Hmain. reflexivity.
  - apply isPublic_spec.
  - intros s' st' Hexplicit'. rewrite classifySubnet_run.
    unfold Part000.judgedPublic, Part000.verdict. rewrite Hexplicit'. reflexivity.
  - intros subnets result Hsub Hin Hrun.
    apply result_membership with (s := s) in Hrun.
    rewrite Hrun. unfold publicSubnet, effectiveRouteTable.
    rewrite Hexplicit, Hmain, Hsub. split.
    + intros (_ & rt & [= <-] & H). exact H.
    + intros H. split; [exact Hin|]. eauto.
Qed.

Lemma C3_witness :
  Part000.classifySubnet Scenario.vpc1 "subnet-b"
    (Scenario.start (Scenario.inventoryWith ["subnet-a"; "subnet-b"] Scenario.mainIgw)) =
  (Returned tt,
   {| inventory := Scenario.inventoryWith ["subnet-a"; "subnet-b"] Scenario.mainIgw;
      calls :=
        [ GetRouteTable [ {| name := "association.subnet-id"; values := ["subnet-b"] |} ];
          GetRouteTable [ {| name := "vpc-id"; values := ["vpc-1"] |};
                          {| name := "association.main"; values := ["true"] |} ] ];
      publicSubnetIds := ["subnet-b"] |}).
Proof.
  apply (proj1 (C3_missing_explicit_table_falls_back_to_main Scenario.vpc1
           (Scenario.start (Scenario.inventoryWith ["subnet-a"; "subnet-b"] Scenario.mainIgw))
           "subnet-b" Scenario.notFound
           {| routeTableId := "rtb-main";
              routes := [Scenario.localRoute; Scenario.toIgw] |}
           eq_refl eq_refl eq_refl)).
Defined.

(** C6.  What decides between recovery and failure is the text of the
    message of the thrown error.  When the explicit lookup for [s] throws
    [error], the turn goes on to look up the main route table exactly when
    [error] is an [Error] object whose message has the words
    [query returned no results] somewhere in it; otherwise the turn throws
    [error] again after the one lookup.  The [name] of the error, its
    structured kind, plays no part. *)
Theorem C6_fallback_decided_by_message_text
    (vpc : GetVpcResult) (st : State) (s : string) (error : Thrown) :
  routeTableResponse (inventory st) (Part000.explicitFilters s) = Threw error ->
  (calls (Part000.classifySubnet vpc s st).2 =
     calls st ++ [ GetRouteTable (Part000.explicitFilters s);
                   GetRouteTable (Part000.mainFilters vpc) ]
   <->
   exists name message before rest,
     error = ErrorObject name message /\
     message = before +:+ "query returned no results" +:+ rest) /\
  ((~ exists name message before rest,
       error = ErrorObject name message /\
       message = before +:+ "query returned no results" +:+ rest) ->
   Part000.classifySubnet vpc s st =
     (Threw error, logCall (GetRouteTable (Part000.explicitFilters s)) st)) /\
  (forall name name' message,
     Part000.noExplicitRouteTable (ErrorObject name message) =
     Part000.noExplicitRouteTable (ErrorObject name' message)).
Proof.
  intros Hexplicit. rewrite <- noExplicitRouteTable_spec.
  rewrite classifySubnet_run.
  unfold Part000.judgedPublic, Part000.verdict, Part000.lookups. rewrite Hexplicit.
  cbn [calls snd].
  split; [|split].
  - destruct (Part000.noExplicitRouteTable error).
    + split; reflexivity.
    + split; [|discriminate]. intros H. apply app_inv_head in H. discriminate.
  - destruct (Part000.noExplicitRouteTable error); [intros H; now elim H|].
    intros _. rewrite app_nil_r. reflexivity.
  - reflexivity.
Qed.

Lemma C6_witness :
  (calls (Part000.classifySubnet Scenario.vpc1 "subnet-x"
            (Scenario.start (Scenario.inventoryWith ["subnet-x"] Scenario.mainIgw))).2 =
     [] ++ [ GetRouteTable (Part000.explicitFilters "subnet-x");
             GetRouteTable (Part000.mainFilters Scenario.vpc1) ]
   <->
   exists name message before rest,
     Scenario.denied = ErrorObject name message /\
     message = before +:+ "query returned no results" +:+ rest) /\
  (calls (Part000.classifySubnet Scenario.vpc1 "subnet-b"
            (Scenario.start (Scenario.inventoryWith ["subnet-b"] Scenario.mainIgw))).2 =
     [] ++ [ GetRouteTable (Part000.explicitFilters "subnet-b");
             GetRouteTable (Part000.mainFilters Scenario.vpc1) ]
   <->
   exists name message before rest,
     Scenario.notFound = ErrorObject name message /\
     message = before +:+ "query returned no results" +:+ rest).
Proof.
  split.
  - apply (proj1 (C6_fallback_decided_by_message_text Scenario.vpc1
             (Scenario.start (Scenario.inventoryWith ["subnet-x"] Scenario.mainIgw))
             "subnet-x" Scenario.denied eq_refl)).
  - apply (proj1 (C6_fallback_decided_by_message_text Scenario.vpc1
             (Scenario.start (Scenario.inventoryWith ["subnet-b"] Scenario.mainIgw))
             "subnet-b" Scenario.notFound eq_refl)).
Defined.

(** C8.  Recovery is narrower than a missing route table.  Let the turn of
    [s] be reached.  (1) If the explicit lookup throws a value that is not
    an [Error] object, the classification ends by throwing it, whatever its
    text, the marker included.  (2) If the explicit lookup throws an error
    the [catch] block recovers from and the lookup of the main route table
    throws in its turn, the classification ends by throwing what the
    main-table lookup threw, be it an absence of results too.  (3) If the
    explicit lookup throws and the classification nevertheless returns, the
    thrown value was an [Error] object whose message has the marker. *)
Theorem C8_recovery_narrower_than_not_found
    (vpc : GetVpcResult) (st : State) (subnets : GetSubnetsResult)
    (before after : list string) (s : string) :
  subnetsResponse (inventory st) (Part000.subnetsFilters vpc) = Returned subnets ->
  ids subnets = before ++ s :: after ->
  forallb (Part000.classified (inventory st) vpc) before = true ->
  (forall text,
     routeTableResponse (inventory st) (Part000.explicitFilters s)
       = Threw (OtherValue text) ->
     (Part000.publicSubnets vpc st).1 = Threw (OtherValue text)) /\
  (forall error error',
     routeTableResponse (inventory st) (Part000.explicitFilters s) = Threw error ->
     Part000.noExplicitRouteTable error = true ->
     routeTableResponse (inventory st) (Part000.mainFilters vpc) = Threw error' ->
     (Part000.publicSubnets vpc st).1 = Threw error') /\
  (forall error result,
     routeTableResponse (inventory st) (Part000.explicitFilters s) = Threw error ->
     (Part000.publicSubnets vpc st).1 = Returned result ->
     exists name message before' rest,
       error = ErrorObject name message /\
       message = before' +:+ "query returned no results" +:+ rest).
Proof.
  intros Hsub Hids Hbefore.
  pose proof (fun error Hs =>
    proj1 (publicSubnets_first_throw (inventory st) vpc st subnets before after s error
             eq_refl Hsub Hids Hbefore Hs)) as Hthrow.
  split; [|split].
  - intros text Hexplicit. apply Hthrow.
    unfold Part000.verdict. rewrite Hexplicit. reflexivity.
  - intros error error' Hexplicit Hrecover Hmain. apply Hthrow.
    unfold Part000.verdict. rewrite Hexplicit, Hrecover, Hmain. reflexivity.
  - intros error result Hexplicit Hrun. apply noExplicitRouteTable_spec.
    destruct (Part000.noExplicitRouteTable error) eqn:Htest; [reflexivity|].
    rewrite (Hthrow error) in Hrun; [discriminate|].
    unfold Part000.verdict. rewrite Hexplicit, Htest. reflexivity.
Qed.

Lemma C8_witness :
  (Part000.publicSubnets Scenario.vpc1
     (Scenario.start
        (Scenario.inventoryWith ["subnet-a"; "subnet-y"; "subnet-b"] Scenario.mainIgw))).1
    = Threw (OtherValue "query returned no results") /\
  (Part000.publicSubnets Scenario.vpc1
     (Scenario.start
        (Scenario.inventoryWith ["subnet-a"; "subnet-b"; "subnet-p"]
           (Threw Scenario.notFound)))).1
    = Threw Scenario.notFound.
Proof.
  split.
  - apply (proj1 (C8_recovery_narrower_than_not_found Scenario.vpc1
             (Scenario.start
                (Scenario.inventoryWith ["subnet-a"; "subnet-y"; "subnet-b"] Scenario.mainIgw))
             {| ids := ["subnet-a"; "subnet-y"; "subnet-b"] |}
             ["subnet-a"] ["subnet-b"] "subnet-y" eq_refl eq_refl eq_refl)).
    reflexivity.
  - apply (proj1 (proj2 (C8_recovery_narrower_than_not_found Scenario.vpc1
             (Scenario.start
                (Scenario.inventoryWith ["subnet-a"; "subnet-b"; "subnet-p"]
                   (Threw Scenario.notFound)))
             {| ids := ["subnet-a"; "subnet-b"; "subnet-p"] |}
             ["subnet-a"] ["subnet-p"] "subnet-b" eq_refl eq_refl eq_refl))
           Scenario.notFound Scenario.notFound).
    + reflexivity.
    + vm_compute. reflexivity.
    + reflexivity.
Defined.

(** ** The two programs side by side *)

Lemma IndexTs_subnetId_run (vpc : GetVpcResult) (st : State) :
  IndexTs.sftpInstance_subnetId vpc st =
  (match subnetsResponse (inventory st) (Part000.subnetsFilters vpc) with
   | Returned subnets => Returned (first (ids subnets))
   | Threw error => Threw error
   end,
   logCall (GetSubnets (Part000.subnetsFilters vpc)) st).
Proof.
  unfold IndexTs.sftpInstance_subnetId, IndexTs.publicSubnets, getSubnets, mbind, M_bind.
  change [ {| name := "vpc-id"; values := [id vpc] |} ] with (Part000.subnetsFilters vpc).
  destruct (subnetsResponse (inventory st) (Part000.subnetsFilters vpc)); reflexivity.
Qed.

Lemma Part000_subnetId_outcome (vpc : GetVpcResult) (st : State) :
  (Part000.sftpInstance_subnetId vpc st).1 =
  match (Part000.publicSubnets vpc st).1 with
  | Returned result => Returned (first result)
  | Threw error => Threw error
  end.
Proof.
  unfold Part000.sftpInstance_subnetId, mbind, M_bind.
  destruct (Part000.publicSubnets vpc st) as [[result|error] st']; reflexivity.
Qed.

(** C7, as first stated, fails on a VPC without subnets: both programs
    hand [undefined] to the instance, so they agree, and there is no first
    enumerated subnet to be public. *)
Lemma C7_agreement_on_empty_enumeration :
  let vpc := Scenario.vpc1 in
  let st := Scenario.start (Scenario.inventoryWith [] Scenario.mainIgw) in
  (IndexTs.sftpInstance_subnetId vpc st).1 = Returned None /\
  (Part000.sftpInstance_subnetId vpc st).1 = Returned None /\
  ~ (exists subnets s rest,
       subnetsResponse (inventory st) (Part000.subnetsFilters vpc) = Returned subnets /\
       ids subnets = s :: rest /\
       publicSubnet (inventory st) vpc s /\
       exists rest', (Part000.publicSubnets vpc st).1 = Returned (s :: rest')).
Proof.
  cbv zeta. split; [reflexivity|]. split; [reflexivity|].
  intros (subnets & s & rest & Hsub & Hids & _).
  vm_compute in Hsub. injection Hsub as <-. discriminate Hids.
Qed.

(** C7.  The two programs are not equivalent.  src/index.ts classifies
    nothing: it issues the enumeration of the subnets and no route-table
    lookup, and hands the first enumerated subnet to the instance.  Its
    choice is that of src/unnamed/part_000 only when the enumeration throws
    (both fail alike), when the enumeration is empty (both hand
    [undefined]), or when the first enumerated subnet is public and so is
    the first of the public subnets; and there are snapshots on which the
    two differ. *)
Theorem C7_index_ts_takes_first_enumerated_subnet (vpc : GetVpcResult) (st : State) :
  IndexTs.sftpInstance_subnetId vpc st =
    (match subnetsResponse (inventory st) (Part000.subnetsFilters vpc) with
     | Returned subnets => Returned (first (ids subnets))
     | Threw error => Threw error
     end,
     logCall (GetSubnets (Part000.subnetsFilters vpc)) st) /\
  ((IndexTs.sftpInstance_subnetId vpc st).1 = (Part000.sftpInstance_subnetId vpc st).1 ->
   (exists error,
      subnetsResponse (inventory st) (Part000.subnetsFilters vpc) = Threw error) \/
   subnetsResponse (inventory st) (Part000.subnetsFilters vpc)
     = Returned {| ids := [] |} \/
   exists subnets s rest,
     subnetsResponse (inventory st) (Part000.subnetsFilters vpc) = Returned subnets /\
     ids subnets = s :: rest /\
     publicSubnet (inventory st) vpc s /\
     exists rest', (Part000.publicSubnets vpc st).1 = Returned (s :: rest')) /\
  (exists vpc' st',
     (IndexTs.sftpInstance_subnetId vpc' st').1 <>
     (Part000.sftpInstance_subnetId vpc' st').1).
Proof.
  split; [apply IndexTs_subnetId_run|]. split.
  - rewrite IndexTs_subnetId_run, Part000_subnetId_outcome. cbn [fst].
    destruct (subnetsResponse (inventory st) (Part000.subnetsFilters vpc))
      as [[subnetIds]|error] eqn:Hsub; [|eauto].
    destruct subnetIds as [|s rest]; [auto|].
    intros Hagree. right. right.
    destruct ((Part000.publicSubnets vpc st).1) as [result|error] eqn:Hrun;
      [|discriminate].
    destruct result as [|s' rest']; [discriminate|].
    injection Hagree as ->.
    exists {| ids := s' :: rest |}, s', rest. repeat split; [|eauto].
    apply (result_membership vpc st (s' :: rest') s' Hrun). apply list_elem_of_here.
  - exists Scenario.vpc1,
      (Scenario.start (Scenario.inventoryWith ["subnet-p"; "subnet-a"] Scenario.mainIgw)).
    vm_compute. discriminate.
Qed.

Lemma C7_witness :
  (exists error,
     subnetsResponse (Scenario.inventoryWith ["subnet-a"; "subnet-p"] Scenario.mainIgw)
       (Part000.subnetsFilters Scenario.vpc1) = Threw error) \/
  subnetsResponse (Scenario.inventoryWith ["subnet-a"; "subnet-p"] Scenario.mainIgw)
    (Part000.subnetsFilters Scenario.vpc1) = Returned {| ids := [] |} \/
  exists subnets s rest,
    subnetsResponse (Scenario.inventoryWith ["subnet-a"; "subnet-p"] Scenario.mainIgw)
      (Part000.subnetsFilters Scenario.vpc1) = Returned subnets /\
    ids subnets = s :: rest /\
    publicSubnet (Scenario.inventoryWith ["subnet-a"; "subnet-p"] Scenario.mainIgw)
      Scenario.vpc1 s /\
    exists rest',
      (Part000.publicSubnets Scenario.vpc1
         (Scenario.start
            (Scenario.inventoryWith ["subnet-a"; "subnet-p"] Scenario.mainIgw))).1
      = Returned (s :: rest').
Proof.
  apply (proj1 (proj2 (C7_index_ts_takes_first_enumerated_subnet Scenario.vpc1
           (Scenario.start
              (Scenario.inventoryWith ["subnet-a"; "subnet-p"] Scenario.mainIgw))))).
  vm_compute. reflexivity.
Defined.

(** * Further properties of the classification *)

(** ** The lookups of a run *)

Section Accounting.

Import Part000.

Variable vpc : GetVpcResult.

Lemma issued_run (st : State) :
  issued vpc st =
  match subnetsResponse (inventory st) (subnetsFilters vpc) with
  | Returned subnets =>
      GetSubnets (subnetsFilters vpc) :: loopCalls (inventory st) vpc (ids subnets)
  | Threw _ => [GetSubnets (subnetsFilters vpc)]
  end.
Proof.
  unfold issued. rewrite publicSubnets_run.
  destruct (subnetsResponse (inventory st) (subnetsFilters vpc));
    cbn [snd calls logCall]; apply drop_app_length.
Qed.

Lemma calls_issued (st : State) :
  calls (publicSubnets vpc st).2 = calls st ++ issued vpc st.
Proof.
  rewrite issued_run, publicSubnets_run.
  destruct (subnetsResponse (inventory st) (subnetsFilters vpc)); reflexivity.
Qed.

Lemma lookups_length (inv : Inventory) (s : string) :
  1 <= length (lookups inv vpc s) <= 2.
Proof.
  unfold lookups. destruct (routeTableResponse inv (explicitFilters s)) as [rt|error].
  - simpl. lia.
  - destruct (noExplicitRouteTable error); simpl; lia.
Qed.

Lemma loopCalls_length_le (inv : Inventory) (subnetIds : list string) :
  length (loopCalls inv vpc subnetIds) <= 2 * length subnetIds.
Proof.
  induction subnetIds as [|s rest IH]; simpl; [lia|].
  rewrite length_app. pose proof (lookups_length inv s).
  destruct (verdict inv vpc s); simpl; lia.
Qed.

Lemma loopCalls_length_ge (inv : Inventory) (subnetIds : list string) :
  loopOutcome inv vpc subnetIds = Returned tt ->
  length subnetIds <= length (loopCalls inv vpc subnetIds).
Proof.
  induction subnetIds as [|s rest IH]; simpl; [lia|].
  rewrite length_app. pose proof (lookups_length inv s) as Hs.
  destruct (verdict inv vpc s); [|discriminate]. intros H. specialize (IH H). lia.
Qed.

(** When every turn finds an explicit table, the loop issues the explicit
    lookups and nothing else, and does not throw. *)
Lemma loop_all_explicit (inv : Inventory) (subnetIds : list string) :
  forallb (hasExplicitTable inv) subnetIds = true ->
  loopOutcome inv vpc subnetIds = Returned tt /\
  loopCalls inv vpc subnetIds =
    map (fun s => GetRouteTable (explicitFilters s)) subnetIds.
Proof.
  induction subnetIds as [|s rest IH]; simpl; [auto|].
  unfold hasExplicitTable at 1, verdict, lookups.
  destruct (routeTableResponse inv (explicitFilters s)); [|discriminate].
  simpl. intros H. destruct (IH H) as [-> ->]. auto.
Qed.

(** The lookups of the main route table among those of the loop: one for
    each turn that recovers, as long as no turn throws. *)
Lemma loopCalls_main (inv : Inventory) (subnetIds : list string) :
  loopOutcome inv vpc subnetIds = Returned tt ->
  length (filter (fun c => c = GetRouteTable (mainFilters vpc))
            (loopCalls inv vpc subnetIds)) =
  length (List.filter (lacksExplicitTable inv) subnetIds).
Proof.
  induction subnetIds as [|s rest IH]; simpl; [reflexivity|].
  rewrite filter_app, length_app.
  assert (Hne : GetRouteTable (explicitFilters s) <> GetRouteTable (mainFilters vpc))
    by (unfold explicitFilters, mainFilters; congruence).
  unfold lacksExplicitTable at 1, verdict, lookups.
  destruct (routeTableResponse inv (explicitFilters s)) as [rt|error].
  - intros H. rewrite (IH H), filter_cons_False by exact Hne. reflexivity.
  - destruct (noExplicitRouteTable error); [|discriminate].
    destruct (routeTableResponse inv (mainFilters vpc)); [|discriminate].
    intros H. rewrite (IH H), filter_cons_False by exact Hne.
    rewrite filter_cons_True by reflexivity. reflexivity.
Qed.

End Accounting.

(** X1.  When the enumeration of the subnets throws, both programs fail
    with what it threw: the classification issues that one lookup, no
    route-table lookup, and neither program hands a subnet to the
    instance. *)
Theorem X1_enumeration_failure_propagates
    (vpc : GetVpcResult) (st : State) (error : Thrown) :
  subnetsResponse (inventory st) (Part000.subnetsFilters vpc) = Threw error ->
  Part000.publicSubnets vpc st =
    (Threw error, logCall (GetSubnets (Part000.subnetsFilters vpc)) st) /\
  (Part000.sftpInstance_subnetId vpc st).1 = Threw error /\
  (IndexTs.sftpInstance_subnetId vpc st).1 = Threw error.
Proof.
  intros H. split; [|split].
  - rewrite publicSubnets_run, H. reflexivity.
  - rewrite Part000_subnetId_outcome, publicSubnets_run, H. reflexivity.
  - rewrite IndexTs_subnetId_run, H. reflexivity.
Qed.

Lemma X1_witness :
  Part000.publicSubnets {| id := "vpc-2" |}
    (Scenario.start (Scenario.inventoryWith ["subnet-a"] Scenario.mainIgw)) =
    (Threw Scenario.notFound,
     logCall (GetSubnets (Part000.subnetsFilters {| id := "vpc-2" |}))
       (Scenario.start (Scenario.inventoryWith ["subnet-a"] Scenario.mainIgw))) /\
  (Part000.sftpInstance_subnetId {| id := "vpc-2" |}
     (Scenario.start (Scenario.inventoryWith ["subnet-a"] Scenario.mainIgw))).1
    = Threw Scenario.notFound /\
  (IndexTs.sftpInstance_subnetId {| id := "vpc-2" |}
     (Scenario.start (Scenario.inventoryWith ["subnet-a"] Scenario.mainIgw))).1
    = Threw Scenario.notFound.
Proof.
  apply (X1_enumeration_failure_propagates {| id := "vpc-2" |}
           (Scenario.start (Scenario.inventoryWith ["subnet-a"] Scenario.mainIgw))
           Scenario.notFound).
  reflexivity.
Defined.

(** X2.  A run of the classification issues at least one lookup and, over
    an enumeration of n subnets, at most 1 + 2n: the enumeration and one or
    two route-table lookups for each subnet.  A run that returns has issued
    at least 1 + n. *)
Theorem X2_number_of_lookups (vpc : GetVpcResult) (st : State) :
  1 <= length (issued vpc st) /\
  forall subnets,
    subnetsResponse (inventory st) (Part000.subnetsFilters vpc) = Returned subnets ->
    length (issued vpc st) <= 1 + 2 * length (ids subnets) /\
    forall result,
      (Part000.publicSubnets vpc st).1 = Returned result ->
      1 + length (ids subnets) <= length (issued vpc st).
Proof.
  rewrite issued_run. split.
  - destruct (subnetsResponse (inventory st) (Part000.subnetsFilters vpc)); simpl; lia.
  - intros subnets Hsub. rewrite publicSubnets_run, Hsub. cbn [fst length]. split.
    + pose proof (loopCalls_length_le vpc (inventory st) (ids subnets)). lia.
    + intros result Hrun.
      destruct (Part000.loopOutcome (inventory st) vpc (ids subnets)) as [[]|] eqn:Hloop;
        [|discriminate].
      pose proof (loopCalls_length_ge vpc (inventory st) (ids subnets) Hloop). lia.
Qed.

Lemma X2_witness :
  length (issued Scenario.vpc1
            (Scenario.start
               (Scenario.inventoryWith ["subnet-a"; "subnet-b"; "subnet-c"] Scenario.mainIgw)))
    <= 1 + 2 * 3 /\
  1 + 3 <= length (issued Scenario.vpc1
                     (Scenario.start
                        (Scenario.inventoryWith ["subnet-a"; "subnet-b"; "subnet-c"]
                           Scenario.mainIgw))).
Proof.
  destruct (proj2 (X2_number_of_lookups Scenario.vpc1
             (Scenario.start
                (Scenario.inventoryWith ["subnet-a"; "subnet-b"; "subnet-c"] Scenario.mainIgw)))
             {| ids := ["subnet-a"; "subnet-b"; "subnet-c"] |} eq_refl) as [Hle Hge].
  split; [exact Hle|].
  apply (Hge ["subnet-a"; "subnet-b"; "subnet-c"]). vm_compute. reflexivity.
Defined.

(** X3.  When every enumerated subnet has an explicit route table, the
    classification cannot throw; it issues the enumeration and then one
    explicit lookup for each subnet, in the order of the enumeration, and
    never looks up the main route table. *)
Theorem X3_all_explicit_tables
    (vpc : GetVpcResult) (st : State) (subnets : GetSubnetsResult) :
  subnetsResponse (inventory st) (Part000.subnetsFilters vpc) = Returned subnets ->
  forallb (hasExplicitTable (inventory st)) (ids subnets) = true ->
  (exists result, (Part000.publicSubnets vpc st).1 = Returned result) /\
  issued vpc st =
    GetSubnets (Part000.subnetsFilters vpc)
      :: map (fun s => GetRouteTable (Part000.explicitFilters s)) (ids subnets) /\
  GetRouteTable (Part000.mainFilters vpc) ∉ issued vpc st.
Proof.
  intros Hsub Hall.
  destruct (loop_all_explicit vpc (inventory st) (ids subnets) Hall) as [Hloop Hcalls].
  assert (Hissued : issued vpc st =
    GetSubnets (Part000.subnetsFilters vpc)
      :: map (fun s => GetRouteTable (Part000.explicitFilters s)) (ids subnets)).
  { rewrite issued_run, Hsub, Hcalls. reflexivity. }
  split; [|split; [exact Hissued|]].
  - rewrite publicSubnets_run, Hsub, Hloop. eauto.
  - rewrite Hissued. rewrite elem_of_cons, list_elem_of_fmap.
    intros [H | (s & H & _)]; [discriminate|].
    unfold Part000.mainFilters, Part000.explicitFilters in H. congruence.
Qed.

Lemma X3_witness :
  (exists result,
     (Part000.publicSubnets Scenario.vpc1
        (Scenario.start
           (Scenario.inventoryWith ["subnet-p"; "subnet-a"] (Threw Scenario.denied)))).1
     = Returned result) /\
  issued Scenario.vpc1
    (Scenario.start
       (Scenario.inventoryWith ["subnet-p"; "subnet-a"] (Threw Scenario.denied))) =
    GetSubnets (Part000.subnetsFilters Scenario.vpc1)
      :: map (fun s => GetRouteTable (Part000.explicitFilters s)) ["subnet-p"; "subnet-a"] /\
  GetRouteTable (Part000.mainFilters Scenario.vpc1) ∉
    issued Scenario.vpc1
      (Scenario.start
         (Scenario.inventoryWith ["subnet-p"; "subnet-a"] (Threw Scenario.denied))).
Proof.
  apply (X3_all_explicit_tables Scenario.vpc1
           (Scenario.start
              (Scenario.inventoryWith ["subnet-p"; "subnet-a"] (Threw Scenario.denied)))
           {| ids := ["subnet-p"; "subnet-a"] |}).
  - reflexivity.
  - vm_compute. reflexivity.
Defined.

(** X4.  The main route table is looked up anew for every subnet that has
    no explicit table: in a run that returns, the number of lookups of the
    main table is the number of enumerated subnets, counted as often as they
    are enumerated, whose explicit lookup was recovered.  Nothing is kept
    from one turn of the loop to the next. *)
Theorem X4_main_table_looked_up_per_subnet
    (vpc : GetVpcResult) (st : State) (subnets : GetSubnetsResult)
    (result : list string) :
  subnetsResponse (inventory st) (Part000.subnetsFilters vpc) = Returned subnets ->
  (Part000.publicSubnets vpc st).1 = Returned result ->
  length (filter (fun c => c = GetRouteTable (Part000.mainFilters vpc)) (issued vpc st)) =
  length (List.filter (lacksExplicitTable (inventory st)) (ids subnets)).
Proof.
  intros Hsub Hrun. rewrite issued_run, Hsub.
  rewrite publicSubnets_run, Hsub in Hrun. cbn [fst] in Hrun.
  destruct (Part000.loopOutcome (inventory st) vpc (ids subnets)) as [[]|] eqn:Hloop;
    [|discriminate].
  rewrite filter_cons_False by discriminate.
  apply loopCalls_main. exact Hloop.
Qed.

Lemma X4_witness :
  length (filter (fun c => c = GetRouteTable (Part000.mainFilters Scenario.vpc1))
            (issued Scenario.vpc1
               (Scenario.start
                  (Scenario.inventoryWith ["subnet-b"; "subnet-a"; "subnet-c"; "subnet-b"]
                     Scenario.mainNat)))) =
  length (List.filter
            (lacksExplicitTable
               (Scenario.inventoryWith ["subnet-b"; "subnet-a"; "subnet-c"; "subnet-b"]
                  Scenario.mainNat))
            ["subnet-b"; "subnet-a"; "subnet-c"; "subnet-b"]).
Proof.
  apply (X4_main_table_looked_up_per_subnet Scenario.vpc1
           (Scenario.start
              (Scenario.inventoryWith ["subnet-b"; "subnet-a"; "subnet-c"; "subnet-b"]
                 Scenario.mainNat))
           {| ids := ["subnet-b"; "subnet-a"; "subnet-c"; "subnet-b"] |} ["subnet-a"]).
  - reflexivity.
  - vm_compute. reflexivity.
Defined.

(** ** Where a run stops, and what it throws *)

Section Stop.

Import Part000.

Variables (inv : Inventory) (vpc : GetVpcResult).

Lemma lookups_elem (s : string) (c : Call) :
  c ∈ lookups inv vpc s ->
  c = GetRouteTable (explicitFilters s) \/ c = GetRouteTable (mainFilters vpc).
Proof.
  unfold lookups. destruct (routeTableResponse inv (explicitFilters s)) as [rt|error];
    [|destruct (noExplicitRouteTable error)];
    rewrite ?elem_of_cons, elem_of_nil; tauto.
Qed.

Lemma lookups_last (s : string) :
  last (lookups inv vpc s) = Some (GetRouteTable (explicitFilters s)) \/
  last (lookups inv vpc s) = Some (GetRouteTable (mainFilters vpc)).
Proof.
  unfold lookups. destruct (routeTableResponse inv (explicitFilters s)) as [rt|error];
    [|destruct (noExplicitRouteTable error)]; simpl; auto.
Qed.

Lemma loopCalls_elem (subnetIds : list string) (c : Call) :
  c ∈ loopCalls inv vpc subnetIds ->
  c = GetRouteTable (mainFilters vpc) \/
  exists t, t ∈ subnetIds /\ c = GetRouteTable (explicitFilters t).
Proof.
  induction subnetIds as [|s rest IH]; simpl.
  - rewrite elem_of_nil. tauto.
  - rewrite elem_of_app. intros [H | H].
    + apply lookups_elem in H as [-> | ->]; [right | left; reflexivity].
      exists s. split; [apply list_elem_of_here | reflexivity].
    + destruct (verdict inv vpc s); [|now apply elem_of_nil in H].
      destruct (IH H) as [-> | (t & Ht & ->)]; [left; reflexivity | right].
      exists t. split; [now apply list_elem_of_further | reflexivity].
Qed.

Lemma loopCalls_first_throw (before after : list string) (s : string) :
  forallb (classified inv vpc) before = true ->
  classified inv vpc s = false ->
  loopCalls inv vpc (before ++ s :: after) =
  loopCalls inv vpc before ++ lookups inv vpc s.
Proof.
  intros Hbefore Hs. induction before as [|p before IH]; simpl in *.
  - unfold classified in Hs. destruct (verdict inv vpc s); [discriminate|].
    rewrite app_nil_r. reflexivity.
  - apply andb_true_iff in Hbefore as [Hp Hbefore]. unfold classified in Hp.
    destruct (verdict inv vpc p); [|discriminate].
    rewrite IH by assumption. rewrite app_assoc. reflexivity.
Qed.

Lemma loopOutcome_threw (subnetIds : list string) (error : Thrown) :
  loopOutcome inv vpc subnetIds = Threw error ->
  exists s, s ∈ subnetIds /\ verdict inv vpc s = Threw error.
Proof.
  induction subnetIds as [|s rest IH]; simpl; [discriminate|].
  destruct (verdict inv vpc s) as [b|error'] eqn:Hs.
  - intros H. destruct (IH H) as (t & Ht & Hv).
    exists t. split; [now apply list_elem_of_further | exact Hv].
  - intros [= ->]. exists s. split; [apply list_elem_of_here | exact Hs].
Qed.

End Stop.

(** X5.  The classification stops at the first turn that throws.  With
    the turns of [before] completed and the turn of [s] throwing, the last
    lookup issued is one of the turn of [s] (its explicit lookup, or the
    lookup of the main table), and no lookup is issued for a subnet that is
    enumerated only after [s]. *)
Theorem X5_no_lookup_after_the_throw
    (vpc : GetVpcResult) (st : State) (subnets : GetSubnetsResult)
    (before after : list string) (s : string) :
  subnetsResponse (inventory st) (Part000.subnetsFilters vpc) = Returned subnets ->
  ids subnets = before ++ s :: after ->
  forallb (Part000.classified (inventory st) vpc) before = true ->
  Part000.classified (inventory st) vpc s = false ->
  (last (issued vpc st) = Some (GetRouteTable (Part000.explicitFilters s)) \/
   last (issued vpc st) = Some (GetRouteTable (Part000.mainFilters vpc))) /\
  (forall t, t ∉ before -> t <> s ->
     GetRouteTable (Part000.explicitFilters t) ∉ issued vpc st).
Proof.
  intros Hsub Hids Hbefore Hs.
  assert (Hissued : issued vpc st =
    (GetSubnets (Part000.subnetsFilters vpc)
       :: Part000.loopCalls (inventory st) vpc before)
    ++ Part000.lookups (inventory st) vpc s).
  { rewrite issued_run, Hsub, Hids, loopCalls_first_throw by assumption. reflexivity. }
  rewrite Hissued. split.
  - pose proof (lookups_length vpc (inventory st) s) as Hlen.
    destruct (Part000.lookups (inventory st) vpc s) as [|c cs] eqn:Hl;
      [simpl in Hlen; lia|].
    rewrite last_app_cons, <- Hl. apply lookups_last.
  - intros t Hnot Hne Hin. apply elem_of_app in Hin as [Hin | Hin].
    + apply elem_of_cons in Hin as [Hin | Hin]; [discriminate|].
      apply loopCalls_elem in Hin as [Hin | (t' & Ht' & Hin)].
      * unfold Part000.explicitFilters, Part000.mainFilters in Hin. congruence.
      * unfold Part000.explicitFilters in Hin. congruence.
    + apply lookups_elem in Hin as [Hin | Hin];
        unfold Part000.explicitFilters, Part000.mainFilters in Hin; congruence.
Qed.

Lemma X5_witness :
  (last (issued Scenario.vpc1
           (Scenario.start
              (Scenario.inventoryWith ["subnet-a"; "subnet-x"; "subnet-b"] Scenario.mainIgw)))
     = Some (GetRouteTable (Part000.explicitFilters "subnet-x")) \/
   last (issued Scenario.vpc1
           (Scenario.start
              (Scenario.inventoryWith ["subnet-a"; "subnet-x"; "subnet-b"] Scenario.mainIgw)))
     = Some (GetRouteTable (Part000.mainFilters Scenario.vpc1))) /\
  (forall t, t ∉ ["subnet-a"] -> t <> "subnet-x" ->
     GetRouteTable (Part000.explicitFilters t) ∉
       issued Scenario.vpc1
         (Scenario.start
            (Scenario.inventoryWith ["subnet-a"; "subnet-x"; "subnet-b"] Scenario.mainIgw))).
Proof.
  apply (X5_no_lookup_after_the_throw Scenario.vpc1
           (Scenario.start
              (Scenario.inventoryWith ["subnet-a"; "subnet-x"; "subnet-b"] Scenario.mainIgw))
           {| ids := ["subnet-a"; "subnet-x"; "subnet-b"] |}
           ["subnet-a"] ["subnet-b"] "subnet-x").
  - reflexivity.
  - reflexivity.
  - vm_compute. reflexivity.
  - vm_compute. reflexivity.
Defined.

(** X6.  The classification throws nothing of its own.  Whatever it
    throws was thrown by a lookup: by the enumeration, by the explicit lookup
    for an enumerated subnet (an error the [catch] block does not recover
    from), or by the lookup of the main table made for an enumerated subnet
    whose explicit lookup was recovered. *)
Theorem X6_thrown_error_comes_from_a_lookup
    (vpc : GetVpcResult) (st : State) (error : Thrown) :
  (Part000.publicSubnets vpc st).1 = Threw error ->
  subnetsResponse (inventory st) (Part000.subnetsFilters vpc) = Threw error \/
  exists subnets s,
    subnetsResponse (inventory st) (Part000.subnetsFilters vpc) = Returned subnets /\
    s ∈ ids subnets /\
    ((routeTableResponse (inventory st) (Part000.explicitFilters s) = Threw error /\
      Part000.noExplicitRouteTable error = false) \/
     (lacksExplicitTable (inventory st) s = true /\
      routeTableResponse (inventory st) (Part000.mainFilters vpc) = Threw error)).
Proof.
  rewrite publicSubnets_run.
  destruct (subnetsResponse (inventory st) (Part000.subnetsFilters vpc))
    as [subnets|error'] eqn:Hsub; cbn [fst].
  - destruct (Part000.loopOutcome (inventory st) vpc (ids subnets)) as [[]|error'] eqn:Hloop;
      [discriminate|].
    intros [= ->]. right.
    apply loopOutcome_threw in Hloop as (s & Hin & Hs).
    exists subnets, s. split; [reflexivity|]. split; [exact Hin|].
    unfold Part000.verdict in Hs. unfold lacksExplicitTable.
    destruct (routeTableResponse (inventory st) (Part000.explicitFilters s))
      as [rt|thrown]; [discriminate|].
    destruct (Part000.noExplicitRouteTable thrown) eqn:Htest.
    + right. split; [reflexivity|].
      destruct (routeTableResponse (inventory st) (Part000.mainFilters vpc));
        [discriminate | congruence].
    + left. injection Hs as ->. auto.
  - intros [= ->]. left. reflexivity.
Qed.

Lemma X6_witness :
  subnetsResponse
    (Scenario.inventoryWith ["subnet-a"; "subnet-b"] (Threw Scenario.denied))
    (Part000.subnetsFilters Scenario.vpc1) = Threw Scenario.denied \/
  exists subnets s,
    subnetsResponse
      (Scenario.inventoryWith ["subnet-a"; "subnet-b"] (Threw Scenario.denied))
      (Part000.subnetsFilters Scenario.vpc1) = Returned subnets /\
    s ∈ ids subnets /\
    ((routeTableResponse
        (Scenario.inventoryWith ["subnet-a"; "subnet-b"] (Threw Scenario.denied))
        (Part000.explicitFilters s) = Threw Scenario.denied /\
      Part000.noExplicitRouteTable Scenario.denied = false) \/
     (lacksExplicitTable
        (Scenario.inventoryWith ["subnet-a"; "subnet-b"] (Threw Scenario.denied)) s = true /\
      routeTableResponse
        (Scenario.inventoryWith ["subnet-a"; "subnet-b"] (Threw Scenario.denied))
        (Part000.mainFilters Scenario.vpc1) = Threw Scenario.denied)).
Proof.
  apply (X6_thrown_error_comes_from_a_lookup Scenario.vpc1
           (Scenario.start
              (Scenario.inventoryWith ["subnet-a"; "subnet-b"] (Threw Scenario.denied)))
           Scenario.denied).
  vm_compute. reflexivity.
Defined.

(** X7.  Subnets without an explicit route table share one fate.  In a
    run that returns, two enumerated subnets whose explicit lookups were both
    recovered are both in the result or both left out, since the one main
    table decides for both. *)
Theorem X7_subnets_on_the_main_table_agree
    (vpc : GetVpcResult) (st : State) (subnets : GetSubnetsResult)
    (result : list string) (s1 s2 : string) :
  subnetsResponse (inventory st) (Part000.subnetsFilters vpc) = Returned subnets ->
  (Part000.publicSubnets vpc st).1 = Returned result ->
  s1 ∈ ids subnets -> s2 ∈ ids subnets ->
  lacksExplicitTable (inventory st) s1 = true ->
  lacksExplicitTable (inventory st) s2 = true ->
  (s1 ∈ result <-> s2 ∈ result).
Proof.
  intros Hsub Hrun H1 H2 Hl1 Hl2.
  rewrite !(result_membership vpc st result _ Hrun), Hsub.
  unfold publicSubnet, effectiveRouteTable.
  unfold lacksExplicitTable in Hl1, Hl2.
  destruct (routeTableResponse (inventory st) (Part000.explicitFilters s1));
    [discriminate|].
  destruct (routeTableResponse (inventory st) (Part000.explicitFilters s2));
    [discriminate|].
  tauto.
Qed.

Lemma X7_witness :
  "subnet-b" ∈ ["subnet-b"; "subnet-a"; "subnet-c"] <->
  "subnet-c" ∈ ["subnet-b"; "subnet-a"; "subnet-c"].
Proof.
  apply (X7_subnets_on_the_main_table_agree Scenario.vpc1
           (Scenario.start
              (Scenario.inventoryWith ["subnet-b"; "subnet-p"; "subnet-a"; "subnet-c"]
                 Scenario.mainIgw))
           {| ids := ["subnet-b"; "subnet-p"; "subnet-a"; "subnet-c"] |}
           ["subnet-b"; "subnet-a"; "subnet-c"] "subnet-b" "subnet-c").
  - reflexivity.
  - vm_compute. reflexivity.
  - simpl. apply list_elem_of_here.
  - simpl. do 3 apply list_elem_of_further. apply list_elem_of_here.
  - vm_compute. reflexivity.
  - vm_compute. reflexivity.
Defined.

(** ** What the verdict on a route table looks at *)

(** X8.  The verdict on a route table looks at the gateway identifiers of
    its routes and at nothing else: two tables whose routes carry the same
    gateway identifiers, in whatever order, however often and for whatever
    destinations, get the same verdict.  A route to an internet gateway
    counts whatever its destination block; a table without routes is not
    public. *)
Theorem X8_verdict_reads_gateway_identifiers_only (a b : GetRouteTableResult) :
  ((forall g, g ∈ map gatewayId (routes a) <-> g ∈ map gatewayId (routes b)) ->
   Part000.isPublic a = Part000.isPublic b) /\
  (routes a = [] -> Part000.isPublic a = false).
Proof.
  split; [|intros H; unfold Part000.isPublic; rewrite H; reflexivity].
  intros Hsame.
  assert (Hone : forall x y : GetRouteTableResult,
    (forall g, g ∈ map gatewayId (routes x) -> g ∈ map gatewayId (routes y)) ->
    Part000.isPublic x = true -> Part000.isPublic y = true).
  { intros x y Hsub Hx. apply isPublic_spec in Hx as (route & g & rest & Hin & Hg & ->).
    assert (Hmem : Some ("igw-" +:+ rest) ∈ map gatewayId (routes y)).
    { apply Hsub. apply list_elem_of_fmap. exists route. auto. }
    apply list_elem_of_fmap in Hmem as (route' & Hg' & Hin').
    apply isPublic_spec. exists route', ("igw-" +:+ rest), rest. auto. }
  destruct (Part000.isPublic a) eqn:Ha.
  - symmetry. apply (Hone a b); [intros g; apply Hsame | exact Ha].
  - destruct (Part000.isPublic b) eqn:Hb; [|reflexivity].
    rewrite <- Ha. apply (Hone b a); [intros g; apply Hsame | exact Hb].
Qed.

Lemma X8_witness :
  Part000.isPublic
    {| routeTableId := "rtb-1";
       routes := [ {| cidrBlock := "0.0.0.0/0"; gatewayId := Some "igw-1" |};
                   {| cidrBlock := "10.0.0.0/16"; gatewayId := None |} ] |} =
  Part000.isPublic
    {| routeTableId := "rtb-2";
       routes := [ {| cidrBlock := "10.0.0.0/16"; gatewayId := None |};
                   {| cidrBlock := "192.168.7.0/24"; gatewayId := Some "igw-1" |};
                   {| cidrBlock := "10.1.0.0/16"; gatewayId := None |} ] |}.
Proof.
  apply (proj1 (X8_verdict_reads_gateway_identifiers_only
           {| routeTableId := "rtb-1";
              routes := [ {| cidrBlock := "0.0.0.0/0"; gatewayId := Some "igw-1" |};
                          {| cidrBlock := "10.0.0.0/16"; gatewayId := None |} ] |}
           {| routeTableId := "rtb-2";
              routes := [ {| cidrBlock := "10.0.0.0/16"; gatewayId := None |};
                          {| cidrBlock := "192.168.7.0/24"; gatewayId := Some "igw-1" |};
                          {| cidrBlock := "10.1.0.0/16"; gatewayId := None |} ] |})).
  intros g. simpl. rewrite !elem_of_cons, !elem_of_nil. tauto.
Defined.

(** ** Where the instance is placed *)

Lemma first_filter (f : string -> bool) (l : list string) :
  match first (List.filter f l) with
  | Some s =>
      exists before after,
        l = before ++ s :: after /\ f s = true /\ forall p, p ∈ before -> f p = false
  | None => forall p, p ∈ l -> f p = false
  end.
Proof.
  induction l as [|x l IH]; simpl.
  - intros p Hp. now apply elem_of_nil in Hp.
  - destruct (f x) eqn:Hx; simpl.
    + exists [], l. repeat split; [exact Hx|]. intros p Hp. now apply elem_of_nil in Hp.
    + unfold first in IH. simpl in IH.
      destruct (List.filter f l) as [|s rest]; simpl in *.
      * intros p Hp. apply elem_of_cons in Hp as [-> | Hp]; auto.
      * destruct IH as (before & after & -> & Hs & Hbefore).
        exists (x :: before), after. repeat split; [exact Hs|].
        intros p Hp. apply elem_of_cons in Hp as [-> | Hp]; auto.
Qed.

(** X9.  In the program that classifies, a subnet handed to the instance
    is an enumerated public subnet, and every subnet enumerated before it is
    not public; [undefined] is handed over, without any error, exactly when
    the run returns and no enumerated subnet is public. *)
Theorem X9_instance_goes_to_first_public_subnet (vpc : GetVpcResult) (st : State) :
  (forall s,
     (Part000.sftpInstance_subnetId vpc st).1 = Returned (Some s) ->
     exists subnets before after,
       subnetsResponse (inventory st) (Part000.subnetsFilters vpc) = Returned subnets /\
       ids subnets = before ++ s :: after /\
       publicSubnet (inventory st) vpc s /\
       forall p, p ∈ before -> ~ publicSubnet (inventory st) vpc p) /\
  ((Part000.sftpInstance_subnetId vpc st).1 = Returned None <->
   exists result subnets,
     (Part000.publicSubnets vpc st).1 = Returned result /\
     subnetsResponse (inventory st) (Part000.subnetsFilters vpc) = Returned subnets /\
     forall p, p ∈ ids subnets -> ~ publicSubnet (inventory st) vpc p).
Proof.
  rewrite Part000_subnetId_outcome.
  destruct ((Part000.publicSubnets vpc st).1) as [result|error] eqn:Hrun.
  - destruct (proj1 (publicSubnets_returns vpc st result) Hrun)
      as (subnets & Hsub & Hall & Hres).
    rewrite forallb_forall in Hall. setoid_rewrite <- list_elem_of_In in Hall.
    pose proof (first_filter (Part000.judgedPublic (inventory st) vpc) (ids subnets))
      as Hfirst.
    rewrite <- Hres in Hfirst. split.
    + intros s [= Hs]. rewrite Hs in Hfirst.
      destruct Hfirst as (before & after & Hids & Hjs & Hbefore).
      assert (Hmem : forall p, p ∈ before ++ s :: after -> p ∈ ids subnets)
        by (intros p; now rewrite Hids).
      exists subnets, before, after. repeat split; [exact Hsub | exact Hids | |].
      * apply judgedPublic_spec; [|exact Hjs].
        apply Hall, Hmem, elem_of_app. right. apply list_elem_of_here.
      * intros p Hp Hpub. apply judgedPublic_spec in Hpub.
        -- rewrite (Hbefore p Hp) in Hpub. discriminate.
        -- apply Hall, Hmem, elem_of_app. now left.
    + split.
      * intros [= Hnone]. rewrite Hnone in Hfirst.
        exists result, subnets. repeat split; [exact Hsub|].
        intros p Hp Hpub. apply judgedPublic_spec in Hpub; [|now apply Hall].
        rewrite (Hfirst p Hp) in Hpub. discriminate.
      * intros (result' & subnets' & [= <-] & Hsub' & Hnone).
        rewrite Hsub in Hsub'. injection Hsub' as <-.
        destruct (first result) as [s|] eqn:Hs; [|reflexivity].
        destruct Hfirst as (before & after & Hids & Hjs & _).
        exfalso. apply (Hnone s).
        -- rewrite Hids. apply elem_of_app. right. apply list_elem_of_here.
        -- apply judgedPublic_spec; [|exact Hjs].
           apply Hall. rewrite Hids. apply elem_of_app. right. apply list_elem_of_here.
  - split; [discriminate|]. split; [discriminate|].
    intros (result & subnets & [=] & _).
Qed.

Lemma X9_witness :
  exists subnets before after,
    subnetsResponse (Scenario.inventoryWith ["subnet-p"; "subnet-b"; "subnet-a"] Scenario.mainIgw)
      (Part000.subnetsFilters Scenario.vpc1) = Returned subnets /\
    ids subnets = before ++ "subnet-b" :: after /\
    publicSubnet (Scenario.inventoryWith ["subnet-p"; "subnet-b"; "subnet-a"] Scenario.mainIgw)
      Scenario.vpc1 "subnet-b" /\
    forall p, p ∈ before ->
      ~ publicSubnet
          (Scenario.inventoryWith ["subnet-p"; "subnet-b"; "subnet-a"] Scenario.mainIgw)
          Scenario.vpc1 p.
Proof.
  apply (proj1 (X9_instance_goes_to_first_public_subnet Scenario.vpc1
           (Scenario.start
              (Scenario.inventoryWith ["subnet-p"; "subnet-b"; "subnet-a"] Scenario.mainIgw)))
           "subnet-b").
  vm_compute. reflexivity.
Defined.

Lemma count_occ_filter (f : string -> bool) (l : list string) (s : string) :
  count_occ string_dec (List.filter f l) s =
  if f s then count_occ string_dec l s else 0.
Proof.
  induction l as [|x l IH]; simpl; [now destruct (f s)|].
  destruct (f x) eqn:Hx; simpl; destruct (string_dec x s) as [->|Hne];
    rewrite IH; try rewrite Hx; destruct (f s); congruence.
Qed.

(** X10.  Nothing is de-duplicated: in a run that returns, a public subnet
    stands in the result as many times as it stands in the enumeration. *)
Theorem X10_result_keeps_multiplicity
    (vpc : GetVpcResult) (st : State) (subnets : GetSubnetsResult)
    (result : list string) (s : string) :
  subnetsResponse (inventory st) (Part000.subnetsFilters vpc) = Returned subnets ->
  (Part000.publicSubnets vpc st).1 = Returned result ->
  publicSubnet (inventory st) vpc s ->
  count_occ string_dec result s = count_occ string_dec (ids subnets) s.
Proof.
  intros Hsub Hrun Hpub.
  apply publicSubnets_returns in Hrun as (subnets' & Hsub' & Hall & ->).
  rewrite Hsub in Hsub'. injection Hsub' as <-.
  rewrite count_occ_filter.
  destruct (Part000.judgedPublic (inventory st) vpc s) eqn:Hj; [reflexivity|].
  symmetry. apply count_occ_not_In. intros Hin.
  rewrite forallb_forall in Hall.
  apply judgedPublic_spec in Hpub; [congruence | auto].
Qed.

Lemma X10_witness :
  count_occ string_dec ["subnet-b"; "subnet-a"; "subnet-b"] "subnet-b" =
  count_occ string_dec ["subnet-b"; "subnet-p"; "subnet-a"; "subnet-b"] "subnet-b".
Proof.
  apply (X10_result_keeps_multiplicity Scenario.vpc1
           (Scenario.start
              (Scenario.inventoryWith ["subnet-b"; "subnet-p"; "subnet-a"; "subnet-b"]
                 Scenario.mainIgw))
           {| ids := ["subnet-b"; "subnet-p"; "subnet-a"; "subnet-b"] |}
           ["subnet-b"; "subnet-a"; "subnet-b"] "subnet-b").
  - reflexivity.
  - vm_compute. reflexivity.
  - exists {| routeTableId := "rtb-main";
              routes := [Scenario.localRoute; Scenario.toIgw] |}.
    split; [reflexivity|].
    exists Scenario.toIgw, "igw-1", "1". split; [|split; reflexivity].
    simpl. apply list_elem_of_further, list_elem_of_here.
Defined.

(** * The declarations both programs share *)

Lemma append_assoc' (a b c : string) : (a +:+ b) +:+ c = a +:+ b +:+ c.
Proof.
  induction a as [|x a IH]; [reflexivity|].
  change (String x ((a +:+ b) +:+ c) = String x (a +:+ b +:+ c)). now rewrite IH.
Qed.

Lemma append_cancel_l (a x y : string) : a +:+ x = a +:+ y -> x = y.
Proof.
  induction a as [|c a IH]; [auto|]. intros H.
  change (String c (a +:+ x) = String c (a +:+ y)) in H. injection H as H. auto.
Qed.

Lemma append_empty_r (a : string) : a +:+ "" = a.
Proof.
  induction a as [|c a IH]; [reflexivity|].
  change (String c (a +:+ "") = String c a). now rewrite IH.
Qed.

Lemma append_not_longer (a x : string) : a = a +:+ x -> x = "".
Proof.
  intros H. apply (append_cancel_l a). rewrite <- H. now rewrite append_empty_r.
Qed.

(** Two strings that cannot be equal: they differ in a character, or one
    is the other with something appended. *)
Ltac absurd_string H :=
  first
    [ discriminate H
    | apply append_not_longer in H; discriminate H
    | symmetry in H; apply append_not_longer in H; discriminate H
    | apply append_cancel_l in H; discriminate H ].

(** X11.  The instance type is never the empty string: it is the
    configured value when that is a non-empty string, and [t3.micro] both
    when nothing is configured and when the empty string is. *)
Theorem X11_instance_type_default (configured : option string) :
  Stack.instanceType configured <> "" /\
  (forall s, configured = Some s -> s <> "" -> Stack.instanceType configured = s) /\
  (configured = None \/ configured = Some "" ->
   Stack.instanceType configured = "t3.micro").
Proof.
  unfold Stack.instanceType, Stack.orElse. split; [|split].
  - destruct configured as [[|c s]|]; discriminate.
  - intros s -> Hs. destruct s; [now elim Hs | reflexivity].
  - intros [-> | ->]; reflexivity.
Qed.

Lemma X11_witness :
  Stack.instanceType (Some "t3.small") = "t3.small" /\
  Stack.instanceType (Some "") = "t3.micro".
Proof.
  split.
  - apply (proj1 (proj2 (X11_instance_type_default (Some "t3.small"))) "t3.small").
    + reflexivity.
    + discriminate.
  - apply (proj2 (proj2 (X11_instance_type_default (Some "")))).
    right. reflexivity.
Defined.

(** X12.  The exported endpoint message names the DNS record that the
    program creates: it reads [SFTP endpoint is ], then the name of the
    record, then [ at ] and the address, so the name of the record occurs in
    it. *)
Theorem X12_endpoint_names_the_record (subDomain domainName publicIp : string) :
  Stack.sftpEndpoint subDomain domainName publicIp =
    "SFTP endpoint is " +:+ Stack.dnsRecord_name subDomain domainName
      +:+ " at " +:+ publicIp /\
  includes (Stack.sftpEndpoint subDomain domainName publicIp)
    (Stack.dnsRecord_name subDomain domainName) = true.
Proof.
  assert (H : Stack.sftpEndpoint subDomain domainName publicIp =
    "SFTP endpoint is " +:+ Stack.dnsRecord_name subDomain domainName
      +:+ " at " +:+ publicIp).
  { unfold Stack.sftpEndpoint, Stack.dnsRecord_name.
    rewrite !append_assoc'. reflexivity. }
  split; [exact H|].
  apply includes_spec. exists "SFTP endpoint is ", (" at " +:+ publicIp). exact H.
Qed.

(** ** The two policy documents *)

Section Policies.

Import Stack.

Variables (bucketArn roleArn : string).

Lemma allows_bucket_policy (action resource : string) :
  allows (sftpBucketPolicy bucketArn roleArn) action resource <->
  (action = "s3:ListBucket" /\ resource = bucketArn) \/
  (action = "s3:GetObject" /\
   (resource = bucketArn +:+ "/firmwares/*" \/
    resource = bucketArn +:+ "/diagnostics/*")) \/
  ((action = "s3:PutObject" \/ action = "s3:DeleteObject") /\
   resource = bucketArn +:+ "/diagnostics/*").
Proof.
  unfold allows, allowsIn. simpl. split.
  - intros (stmt & Hin & Heff & Ha & Hr).
    repeat (apply elem_of_cons in Hin as [-> | Hin]); simpl in *;
      try discriminate; try (now apply elem_of_nil in Hin);
      set_unfold in Ha; set_unfold in Hr; intuition auto.
  - intros [[-> ->] | [[-> Hr] | [Ha ->]]].
    + eexists. split; [apply list_elem_of_further, list_elem_of_here|].
      simpl. rewrite !elem_of_cons. auto.
    + eexists. split; [do 2 apply list_elem_of_further; apply list_elem_of_here|].
      simpl. rewrite !elem_of_cons. tauto.
    + eexists. split; [do 3 apply list_elem_of_further; apply list_elem_of_here|].
      simpl. rewrite !elem_of_cons. tauto.
Qed.

Lemma allows_role_policy (action resource : string) :
  allows (s3AccessPolicy bucketArn) action resource <->
  (action = "s3:ListBucket" /\ resource = bucketArn) \/
  (action = "s3:GetObject" /\
   (resource = bucketArn +:+ "/firmwares/*" \/
    resource = bucketArn +:+ "/diagnostics/*")) \/
  ((action = "s3:PutObject" \/ action = "s3:DeleteObject") /\
   resource = bucketArn +:+ "/diagnostics/*").
Proof.
  unfold allows, allowsIn. simpl. split.
  - intros (stmt & Hin & Heff & Ha & Hr).
    repeat (apply elem_of_cons in Hin as [-> | Hin]); simpl in *;
      try discriminate; try (now apply elem_of_nil in Hin);
      set_unfold in Ha; set_unfold in Hr; intuition auto.
  - intros [[-> ->] | [[-> [-> | ->]] | [Ha ->]]].
    + eexists. split; [apply list_elem_of_here|].
      simpl. rewrite !elem_of_cons. auto.
    + eexists. split; [apply list_elem_of_further, list_elem_of_here|].
      simpl. rewrite !elem_of_cons. auto.
    + eexists. split; [do 2 apply list_elem_of_further; apply list_elem_of_here|].
      simpl. rewrite !elem_of_cons. tauto.
    + eexists. split; [do 2 apply list_elem_of_further; apply list_elem_of_here|].
      simpl. rewrite !elem_of_cons. tauto.
Qed.

End Policies.

(** X13.  The bucket policy and the policy attached to the role agree:
    whatever the two ARNs, an action on a resource is allowed by a statement
    of the one exactly when it is allowed by a statement of the other. *)
Theorem X13_policies_allow_the_same (bucketArn roleArn action resource : string) :
  Stack.allows (Stack.sftpBucketPolicy bucketArn roleArn) action resource <->
  Stack.allows (Stack.s3AccessPolicy bucketArn) action resource.
Proof.
  rewrite allows_bucket_policy, allows_role_policy. reflexivity.
Qed.

(** X14.  Writing is confined to the diagnostics folder.  In both policy
    documents, whatever the ARNs, an allowed [s3:PutObject] or
    [s3:DeleteObject] is on [<bucket>/diagnostics/*]; the only action
    allowed on [<bucket>/firmwares/*] is [s3:GetObject]; and the only action
    allowed on the bucket itself is [s3:ListBucket]. *)
Theorem X14_writes_confined_to_diagnostics
    (bucketArn roleArn action resource : string) :
  Stack.allows (Stack.sftpBucketPolicy bucketArn roleArn) action resource \/
  Stack.allows (Stack.s3AccessPolicy bucketArn) action resource ->
  (action = "s3:PutObject" \/ action = "s3:DeleteObject" ->
   resource = bucketArn +:+ "/diagnostics/*") /\
  (resource = bucketArn +:+ "/firmwares/*" -> action = "s3:GetObject") /\
  (resource = bucketArn -> action = "s3:ListBucket").
Proof.
  rewrite allows_bucket_policy, allows_role_policy. intros H.
  assert (H' : (action = "s3:ListBucket" /\ resource = bucketArn) \/
    (action = "s3:GetObject" /\
     (resource = bucketArn +:+ "/firmwares/*" \/
      resource = bucketArn +:+ "/diagnostics/*")) \/
    ((action = "s3:PutObject" \/ action = "s3:DeleteObject") /\
     resource = bucketArn +:+ "/diagnostics/*")) by tauto.
  clear H. revert H'.
  intros [[-> ->] | [[-> Hr] | [Ha ->]]]; repeat split; intros H;
    try reflexivity;
    try (destruct H; discriminate);
    try (absurd_string H);
    subst; destruct Hr as [Hr | Hr]; absurd_string Hr.
Qed.

Lemma X14_witness :
  "arn:aws:s3:::sftp" +:+ "/diagnostics/*" = "arn:aws:s3:::sftp" +:+ "/diagnostics/*".
Proof.
  apply (proj1 (X14_writes_confined_to_diagnostics "arn:aws:s3:::sftp"
           "arn:aws:iam::1:role/sftp-role" "s3:DeleteObject"
           ("arn:aws:s3:::sftp" +:+ "/diagnostics/*")
           ltac:(right;
                 exists (Stack.Build_PolicyStatement "Allow" None
                           (Stack.Many ["s3:GetObject"; "s3:PutObject"; "s3:DeleteObject"])
                           (Stack.One ("arn:aws:s3:::sftp" +:+ "/diagnostics/*")) None);
                 split;
                 [ simpl; do 2 apply list_elem_of_further; apply list_elem_of_here
                 | split; [reflexivity|]; split; simpl;
                   [ do 2 apply list_elem_of_further; apply list_elem_of_here
                   | apply list_elem_of_here ] ]))).
  right. reflexivity.
Defined.

(** X15.  The bucket policy lets in nobody but the role: whatever the
    ARNs, each of its statements with [Effect: "Allow"] has the role as its
    principal, and its one statement for every principal is the [Deny] of
    requests made without secure transport, on the bucket and on every
    object in it. *)
Theorem X15_bucket_policy_allows_the_role_only
    (bucketArn roleArn : string) (stmt : Stack.PolicyStatement) :
  stmt ∈ Stack.Statement (Stack.sftpBucketPolicy bucketArn roleArn) ->
  (Stack.Effect stmt = "Allow" -> Stack.Principal stmt = Some (Stack.Aws roleArn)) /\
  (Stack.Principal stmt = Some Stack.Everyone ->
   Stack.Effect stmt = "Deny" /\
   Stack.Action stmt = Stack.One "s3:*" /\
   Stack.Resource stmt = Stack.Many [bucketArn; bucketArn +:+ "/*"] /\
   Stack.Condition stmt =
     Some {| Stack.operator := "Bool"; Stack.key := "aws:SecureTransport";
             Stack.value := "false" |}).
Proof.
  simpl. intros Hin.
  repeat (apply elem_of_cons in Hin as [-> | Hin]); simpl;
    try (now apply elem_of_nil in Hin);
    (split; [intros H; try discriminate; reflexivity
            | intros H; try discriminate; auto]).
Qed.

Lemma X15_witness :
  Stack.Principal
    (Stack.Build_PolicyStatement "Allow" (Some (Stack.Aws "arn:aws:iam::1:role/sftp-role"))
       (Stack.Many ["s3:PutObject"; "s3:DeleteObject"])
       (Stack.One ("arn:aws:s3:::sftp" +:+ "/diagnostics/*")) None)
  = Some (Stack.Aws "arn:aws:iam::1:role/sftp-role").
Proof.
  apply (proj1 (X15_bucket_policy_allows_the_role_only "arn:aws:s3:::sftp"
           "arn:aws:iam::1:role/sftp-role"
           (Stack.Build_PolicyStatement "Allow"
              (Some (Stack.Aws "arn:aws:iam::1:role/sftp-role"))
              (Stack.Many ["s3:PutObject"; "s3:DeleteObject"])
              (Stack.One ("arn:aws:s3:::sftp" +:+ "/diagnostics/*")) None)
           ltac:(simpl; do 3 apply list_elem_of_further; apply list_elem_of_here))).
  reflexivity.
Defined.

(** * What the classification reads, and when the two programs agree *)

Section Reads.

Import Part000.

Variable vpc : GetVpcResult.

Lemma loop_ext (inv1 inv2 : Inventory) (subnetIds : list string) :
  (forall s, s ∈ subnetIds ->
     verdict inv1 vpc s = verdict inv2 vpc s /\
     lookups inv1 vpc s = lookups inv2 vpc s) ->
  loopOutcome inv1 vpc subnetIds = loopOutcome inv2 vpc subnetIds /\
  loopCalls inv1 vpc subnetIds = loopCalls inv2 vpc subnetIds /\
  loopPushed inv1 vpc subnetIds = loopPushed inv2 vpc subnetIds.
Proof.
  induction subnetIds as [|s rest IH]; intros Hsame; simpl; [auto|].
  destruct (Hsame s (list_elem_of_here s rest)) as [-> ->].
  destruct IH as (-> & -> & ->); [|auto].
  intros t Ht. apply Hsame. now apply list_elem_of_further.
Qed.

End Reads.

(** X16.  The classification reads three kinds of answers and no other:
    the enumeration of the subnets of the VPC, the explicit lookup for each
    enumerated subnet and the lookup of the main table.  Two snapshots that
    give the same answers to these give the same outcome and see the same
    lookups issued, whatever else they hold. *)
Theorem X16_outcome_depends_on_the_lookups_made
    (vpc : GetVpcResult) (st1 st2 : State) :
  subnetsResponse (inventory st1) (Part000.subnetsFilters vpc) =
    subnetsResponse (inventory st2) (Part000.subnetsFilters vpc) ->
  (forall subnets s,
     subnetsResponse (inventory st1) (Part000.subnetsFilters vpc) = Returned subnets ->
     s ∈ ids subnets ->
     routeTableResponse (inventory st1) (Part000.explicitFilters s) =
       routeTableResponse (inventory st2) (Part000.explicitFilters s)) ->
  routeTableResponse (inventory st1) (Part000.mainFilters vpc) =
    routeTableResponse (inventory st2) (Part000.mainFilters vpc) ->
  (Part000.publicSubnets vpc st1).1 = (Part000.publicSubnets vpc st2).1 /\
  issued vpc st1 = issued vpc st2.
Proof.
  intros Hsub Hexplicit Hmain.
  rewrite !issued_run, !publicSubnets_run, <- Hsub.
  destruct (subnetsResponse (inventory st1) (Part000.subnetsFilters vpc))
    as [subnets|error] eqn:Hs; [|auto].
  destruct (loop_ext vpc (inventory st1) (inventory st2) (ids subnets))
    as (-> & -> & ->); [|auto].
  intros s Hin. unfold Part000.verdict, Part000.lookups.
  rewrite (Hexplicit subnets s eq_refl Hin), Hmain. auto.
Qed.

Lemma X16_witness :
  (Part000.publicSubnets Scenario.vpc1
     (Scenario.start (Scenario.inventoryWith ["subnet-a"; "subnet-p"] Scenario.mainIgw))).1 =
  (Part000.publicSubnets Scenario.vpc1
     {| inventory :=
          {| subnetsResponse := fun _ => Returned {| ids := ["subnet-a"; "subnet-p"] |};
             routeTableResponse :=
               routeTableResponse
                 (Scenario.inventoryWith ["subnet-x"] Scenario.mainIgw) |};
        calls := [GetSubnets []];
        publicSubnetIds := ["subnet-z"] |}).1 /\
  issued Scenario.vpc1
    (Scenario.start (Scenario.inventoryWith ["subnet-a"; "subnet-p"] Scenario.mainIgw)) =
  issued Scenario.vpc1
    {| inventory :=
         {| subnetsResponse := fun _ => Returned {| ids := ["subnet-a"; "subnet-p"] |};
            routeTableResponse :=
              routeTableResponse
                (Scenario.inventoryWith ["subnet-x"] Scenario.mainIgw) |};
       calls := [GetSubnets []];
       publicSubnetIds := ["subnet-z"] |}.
Proof.
  apply (X16_outcome_depends_on_the_lookups_made Scenario.vpc1
           (Scenario.start (Scenario.inventoryWith ["subnet-a"; "subnet-p"] Scenario.mainIgw))
           {| inventory :=
                {| subnetsResponse := fun _ => Returned {| ids := ["subnet-a"; "subnet-p"] |};
                   routeTableResponse :=
                     routeTableResponse
                       (Scenario.inventoryWith ["subnet-x"] Scenario.mainIgw) |};
              calls := [GetSubnets []];
              publicSubnetIds := ["subnet-z"] |}).
  - reflexivity.
  - intros subnets s _ _. reflexivity.
  - reflexivity.
Defined.

(** X17.  When the first enumerated subnet is public and the
    classification returns, the two programs hand the same subnet to the
    instance: that first one. *)
Theorem X17_programs_agree_on_a_public_first_subnet
    (vpc : GetVpcResult) (st : State) (subnets : GetSubnetsResult)
    (s : string) (rest result : list string) :
  subnetsResponse (inventory st) (Part000.subnetsFilters vpc) = Returned subnets ->
  ids subnets = s :: rest ->
  publicSubnet (inventory st) vpc s ->
  (Part000.publicSubnets vpc st).1 = Returned result ->
  (Part000.sftpInstance_subnetId vpc st).1 = Returned (Some s) /\
  (IndexTs.sftpInstance_subnetId vpc st).1 = Returned (Some s).
Proof.
  intros Hsub Hids Hpub Hrun. split.
  - rewrite Part000_subnetId_outcome, Hrun.
    apply publicSubnets_returns in Hrun as (subnets' & Hsub' & Hall & ->).
    rewrite Hsub in Hsub'. injection Hsub' as <-. rewrite Hids in *.
    simpl in Hall. apply andb_true_iff in Hall as [Hs _].
    apply judgedPublic_spec in Hpub; [|exact Hs].
    simpl. rewrite Hpub. reflexivity.
  - rewrite IndexTs_subnetId_run, Hsub, Hids. reflexivity.
Qed.

Lemma X17_witness :
  (Part000.sftpInstance_subnetId Scenario.vpc1
     (Scenario.start
        (Scenario.inventoryWith ["subnet-a"; "subnet-p"; "subnet-b"] Scenario.mainNat))).1
    = Returned (Some "subnet-a") /\
  (IndexTs.sftpInstance_subnetId Scenario.vpc1
     (Scenario.start
        (Scenario.inventoryWith ["subnet-a"; "subnet-p"; "subnet-b"] Scenario.mainNat))).1
    = Returned (Some "subnet-a").
Proof.
  apply (X17_programs_agree_on_a_public_first_subnet Scenario.vpc1
           (Scenario.start
              (Scenario.inventoryWith ["subnet-a"; "subnet-p"; "subnet-b"] Scenario.mainNat))
           {| ids := ["subnet-a"; "subnet-p"; "subnet-b"] |}
           "subnet-a" ["subnet-p"; "subnet-b"] ["subnet-a"]).
  - reflexivity.
  - reflexivity.
  - exists {| routeTableId := "rtb-a";
              routes := [Scenario.localRoute; Scenario.toIgw] |}.
    split; [reflexivity|].
    exists Scenario.toIgw, "igw-1", "1". split; [|split; reflexivity].
    simpl. apply list_elem_of_further, list_elem_of_here.
  - vm_compute. reflexivity.
Defined.
